(** * GSTcheck: the GSTIN batch validation script

  A shallow embedding of [GSTcheck.py]: the lookup client
  [get_gstin_details], the batch loop that runs it over the unique
  identifiers of the uploaded column, and the column sizing of the
  rendered report.

  Conventions of the embedding.
  - A Python [str] is a [string]; one [ascii] stands for one code point
    (code points 0..255), so [String.length] is Python's [len].
  - A Python [int] is a [Z], a Python [float] a binary64 [float].
  - A [dict] is the list of its items in insertion order (keys unique).
  - An exception is a value of [exception]; a computation that may raise
    returns a [result].  Every exception modelled is an instance of
    Python's [Exception], the class the handler of [get_gstin_details]
    catches.
  - The network is an oracle [network]: what a GET answers may depend on
    every URL requested before it.  The list of URLs requested so far is
    the state threaded through the run. *)

From Stdlib Require Import ZArith Floats Uint63 Lia List Bool Ascii String DecimalString.
From Stdlib Require Import DecimalPos DecimalZ.
From stdpp Require Import base decidable option list sets strings gmap.
Import ListNotations.

Local Open Scope Z_scope.
Set Warnings "-register-all,-clear-no-such-hyp".

(** ** The Python runtime, as far as the script uses it *)
Module Py.

(** Exceptions that can reach the handler of [get_gstin_details]. *)
Inductive exception : Type :=
| RequestException (msg : string)   (* requests.get: Timeout, ConnectionError, ... *)
| JSONDecodeError (msg : string)    (* r.json() on a body that is not JSON *)
| AttributeError (msg : string)     (* x.get on something that has no get *)
| TypeError (msg : string).         (* str.join on a bad argument *)

(** [str(e)], as interpolated by an f-string. *)
Definition exn_str (e : exception) : string :=
  match e with
  | RequestException m | JSONDecodeError m | AttributeError m | TypeError m => m
  end.

Inductive result (A : Type) : Type :=
| Ok (a : A)
| Raise (e : exception).
Arguments Ok {A} a.
Arguments Raise {A} e.

Definition bind {A B} (c : result A) (k : A -> result B) : result B :=
  match c with
  | Ok a => k a
  | Raise e => Raise e
  end.

#[global] Instance result_ret : MRet result := @Ok.
#[global] Instance result_bind : MBind result := fun A B k c => bind c k.

(** [try: body  except Exception as e: handler e] *)
Definition try_except {A} (body : result A) (handler : exception -> A) : A :=
  match body with
  | Ok a => a
  | Raise e => handler e
  end.

(** Values: what [json.loads] builds, which is also what a record holds. *)
Inductive value : Type :=
| VNone
| VBool (b : bool)
| VInt (z : Z)
| VFloat (f : float)
| VStr (s : string)
| VList (l : list value)
| VDict (d : list (string * value)).

Abbreviation dict := (list (string * value)).

Definition type_name (v : value) : string :=
  match v with
  | VNone => "NoneType"
  | VBool _ => "bool"
  | VInt _ => "int"
  | VFloat _ => "float"
  | VStr _ => "str"
  | VList _ => "list"
  | VDict _ => "dict"
  end.

(** [bool(v)] *)
Definition truthy (v : value) : bool :=
  match v with
  | VNone => false
  | VBool b => b
  | VInt z => negb (z =? 0)
  | VFloat f => negb (PrimFloat.eqb f PrimFloat.zero)
  | VStr s => negb (String.eqb s "")
  | VList l => match l with [] => false | _ => true end
  | VDict d => match d with [] => false | _ => true end
  end.

(** [d[k]] when present. *)
Fixpoint dict_get (d : dict) (k : string) : option value :=
  match d with
  | [] => None
  | (k', v) :: rest => if String.eqb k' k then Some v else dict_get rest k
  end.

(** [x.get(k, dflt)]: a dict answers, anything else has no [get]. *)
Definition get (x : value) (k : string) (dflt : value) : result value :=
  match x with
  | VDict d => Ok (default dflt (dict_get d k))
  | _ => Raise (AttributeError
                  ("'" +:+ type_name x +:+ "' object has no attribute 'get'"))
  end.

(** [str(z)] for an int. *)
Definition str_int (z : Z) : string := NilZero.string_of_int (Z.to_int z).

(** [sep.join] over the items of a sequence, each of which must be a str;
    [i] is the position of the head, for the error message. *)
Fixpoint join_items (sep : string) (i : Z) (items : list value) : result string :=
  match items with
  | [] => Ok ""
  | VStr s :: rest =>
      match rest with
      | [] => Ok s
      | _ => t ← join_items sep (i + 1) rest; Ok (s +:+ sep +:+ t)
      end
  | v :: _ =>
      Raise (TypeError ("sequence item " +:+ str_int i +:+ ": expected str instance, "
                          +:+ type_name v +:+ " found"))
  end.

Definition chars (s : string) : list value :=
  map (fun c => VStr (String c "")) (list_ascii_of_string s).

(** [sep.join(x)]: lists give their items, a str its characters, a dict
    its keys; nothing else is iterable. *)
Definition join (sep : string) (x : value) : result string :=
  match x with
  | VList l => join_items sep 0 l
  | VStr s => join_items sep 0 (chars s)
  | VDict d => join_items sep 0 (map (fun kv => VStr (fst kv)) d)
  | _ => Raise (TypeError "can only join an iterable")
  end.

(** [c.isspace()] on code points below 256. *)
Definition is_space (c : ascii) : bool :=
  let n := Z.of_nat (nat_of_ascii c) in
  ((9 <=? n) && (n <=? 13)) || ((28 <=? n) && (n <=? 32))
  || (n =? 133) || (n =? 160).

Fixpoint lstrip (s : string) : string :=
  match s with
  | EmptyString => EmptyString
  | String c rest => if is_space c then lstrip rest else s
  end.

Fixpoint rstrip (s : string) : string :=
  match s with
  | EmptyString => EmptyString
  | String c rest =>
      match rstrip rest with
      | EmptyString => if is_space c then EmptyString else String c EmptyString
      | kept => String c kept
      end
  end.

(** [s.strip()] *)
Definition strip (s : string) : string := rstrip (lstrip s).

(** [s.startswith(p)] *)
Fixpoint startswith (s p : string) {struct p} : bool :=
  match p with
  | EmptyString => true
  | String a p' =>
      match s with
      | EmptyString => false
      | String b s' => Ascii.eqb a b && startswith s' p'
      end
  end.

(** [float(z)] for a small non-negative int, as [/] needs it. *)
Definition float_of_int (z : Z) : float := PrimFloat.of_uint63 (Uint63.of_Z z).

(** [int(x)]: truncation toward zero; Python raises on nan and the
    infinities. *)
Definition int_of_float (x : float) : option Z :=
  match Prim2SF x with
  | S754_zero _ => Some 0
  | S754_finite sign m e =>
      let a := if 0 <=? e then Z.shiftl (Z.pos m) e else Z.shiftr (Z.pos m) (- e) in
      Some (if sign then - a else a)
  | S754_infinity _ | S754_nan => None
  end.

(** [max] of a sequence; [None] is Python's ValueError on an empty one. *)
Definition max (l : list Z) : option Z :=
  match l with
  | [] => None
  | x :: rest => Some (fold_left Z.max rest x)
  end.

End Py.


(** ** The lookup client *)
Module Lookup.
Import Py.

(** What [requests.get] hands back: [r.status_code], and what [r.json()]
    gives when it is called (a value, or the decoder's exception). *)
Record response : Type := { status_code : Z; json : result value }.

(** The answer to a GET, given the URLs requested before it.  A timeout
    (after the 10 seconds the script allows) or a connection error is a
    [Raise]. *)
Definition network : Type := list string -> string -> result response.

(** A record is the dict the function returns. *)
Abbreviation record := dict.

Definition url (api_key gstin : string) : string :=
  "http://sheet.gstincheck.co.in/check/" +:+ api_key +:+ "/" +:+ gstin.

(** [requests.get(url, timeout=10)] *)
Definition requests_get (net : network) (u : string) (log : list string)
  : result response * list string :=
  (net log u, log ++ [u]).

Definition not_found (gstin : string) : record :=
  [("GSTIN", VStr gstin); ("Status", VStr "Invalid / Not Found")].

Definition api_error (gstin : string) (code : Z) : record :=
  [("GSTIN", VStr gstin); ("Status", VStr ("API Error " +:+ str_int code))].

Definition error (gstin : string) (e : exception) : record :=
  [("GSTIN", VStr gstin); ("Status", VStr ("Error: " +:+ exn_str e))].

(** The dict display of the success branch; its entries are evaluated in
    the order written, so the first one to raise decides the exception. *)
Definition details (gstin : string) (data : value) : result record :=
  sts ← get data "sts" (VStr "");
  lgnm ← get data "lgnm" (VStr "");
  tradeNam ← get data "tradeNam" (VStr "");
  ctb ← get data "ctb" (VStr "");
  ctj ← get data "ctj" (VStr "");
  stj ← get data "stj" (VStr "");
  pradr ← get data "pradr" (VDict []);
  addr ← get pradr "addr" (VStr "");
  rgdt ← get data "rgdt" (VStr "");
  cxdt ← get data "cxdt" (VStr "");
  nba ← get data "nba" (VList []);
  nature ← join ", " nba;
  stcd ← get data "stcd" (VStr "");
  lstupdt ← get data "lstupdt" (VStr "");
  Ok [("GSTIN", VStr gstin);
      ("Status", sts);
      ("Legal_Name", lgnm);
      ("Trade_Name", tradeNam);
      ("Constitution", ctb);
      ("Center_Jurisdiction", ctj);
      ("State_Jurisdiction", stj);
      ("Principal_Place", addr);
      ("Registration_Date", rgdt);
      ("Cancellation_Date", cxdt);
      ("Nature_of_Business", VStr nature);
      ("State_Code", stcd);
      ("Last_Updated", lstupdt)].

(** The body of the [try] once the response is there. *)
Definition on_response (gstin : string) (r : response) : result record :=
  if status_code r =? 200 then
    resp ← json r;
    flag ← get resp "flag" VNone;
    if truthy flag then
      data ← get resp "data" (VDict []);
      details gstin data
    else Ok (not_found gstin)
  else Ok (api_error gstin (status_code r)).

Definition get_gstin_details (net : network) (api_key gstin : string)
    (log : list string) : record * list string :=
  let '(got, log') := requests_get net (url api_key gstin) log in
  (try_except (r ← got; on_response gstin r) (error gstin), log').

(** The names a record can have as keys. *)
Definition field_names : list string :=
  ["GSTIN"; "Status"; "Legal_Name"; "Trade_Name"; "Constitution";
   "Center_Jurisdiction"; "State_Jurisdiction"; "Principal_Place";
   "Registration_Date"; "Cancellation_Date"; "Nature_of_Business";
   "State_Code"; "Last_Updated"].

End Lookup.

(** ** Spreadsheet cells *)
Module Sheet.

(** A cell of the uploaded column, or of the written worksheet.  A float
    carries the text Python prints for it: the shortest decimal that
    reads back as the same float is computed by the runtime and is not
    modelled here; only finite non-zero floats use it. *)
Inductive cell : Type :=
| CNone
| CBool (b : bool)
| CInt (z : Z)
| CFloat (f : float) (repr : string)
| CStr (s : string).

(** [pandas.isna] *)
Definition isna (c : cell) : bool :=
  match c with
  | CNone => true
  | CFloat f _ => PrimFloat.is_nan f
  | _ => false
  end.

(** [str(c)] *)
Definition str (c : cell) : string :=
  match c with
  | CNone => "None"
  | CBool true => "True"
  | CBool false => "False"
  | CInt z => Py.str_int z
  | CFloat f repr =>
      match Prim2SF f with
      | S754_zero false => "0.0"
      | S754_zero true => "-0.0"
      | S754_infinity false => "inf"
      | S754_infinity true => "-inf"
      | S754_nan => "nan"
      | S754_finite _ _ _ => repr
      end
  | CStr s => s
  end.

(** [bool(c)] *)
Definition truthy (c : cell) : bool :=
  match c with
  | CNone => false
  | CBool b => b
  | CInt z => negb (z =? 0)
  | CFloat f _ => negb (PrimFloat.eqb f PrimFloat.zero)
  | CStr s => negb (String.eqb s "")
  end.

End Sheet.

(** ** The batch run *)
Module Batch.
Import Py Lookup Sheet.

(** [Series.dropna()] *)
Definition dropna (col : list cell) : list cell :=
  filter (λ c, isna c = false) col.

(** [Series.unique()]: one pass with a hash set of the values seen,
    keeping each value where it first appears. *)
Fixpoint unique_from (seen : gset string) (l : list string) : list string :=
  match l with
  | [] => []
  | x :: rest =>
      if decide (x ∈ seen) then unique_from seen rest
      else x :: unique_from ({[x]} ∪ seen) rest
  end.

Definition unique (l : list string) : list string := unique_from ∅ l.

(** [df["GSTIN"].dropna().astype(str).str.strip().unique().tolist()] *)
Definition gstins (col : list cell) : list string :=
  unique (strip <$> (str <$> dropna col)).

(** What the status placeholder is asked to show: [status.info(msg)]
    during the loop, [status.success(...)] with a fixed text after it. *)
Inductive status_event : Type :=
| Info (msg : string)
| Success.

(** f"Validating {g} ({idx}/{len(gstins)})" *)
Definition validating_message (g : string) (idx total : Z) : string :=
  "Validating " +:+ g +:+ " (" +:+ str_int idx +:+ "/" +:+ str_int total +:+ ")".

(** The state of a run: the [results] list, what the progress bar and the
    status placeholder were given, and the URLs requested. *)
Record run_state : Type := {
  results : list record;
  progress : list Z;
  status : list status_event;
  requested : list string
}.

(** [idx / len(gstins) * 100], in binary64 as Python computes it. *)
Definition progress_float (idx total : Z) : float :=
  PrimFloat.mul (PrimFloat.div (float_of_int idx) (float_of_int total))
                (float_of_int 100).

(** [int(idx / len(gstins) * 100)].  [int] raises only on nan and the
    infinities; the quotient of two list positions times 100 is neither
    (see [progress_small]), and the [0] stands there. *)
Definition progress_value (idx total : Z) : Z :=
  default 0 (int_of_float (progress_float idx total)).

(** [for idx, g in enumerate(gstins, start=1): ...] from position [idx]. *)
Fixpoint loop (net : network) (api_key : string) (total : Z)
    (idx : Z) (gs : list string) (st : run_state) : run_state :=
  match gs with
  | [] => st
  | g :: rest =>
      let status1 := status st ++ [Info (validating_message g idx total)] in
      let '(data, requested1) := get_gstin_details net api_key g (requested st) in
      let results1 := results st ++ [data] in
      let progress1 := progress st ++ [progress_value idx total] in
      loop net api_key total (idx + 1) rest
        {| results := results1; progress := progress1;
           status := status1; requested := requested1 |}
  end.

(** The body of [if run_btn:] up to the end of the loop. *)
Definition validate (net : network) (api_key : string) (gs : list string) : run_state :=
  let st := loop net api_key (Z.of_nat (length gs)) 1 gs
              {| results := []; progress := [0]; status := []; requested := [] |} in
  {| results := results st; progress := progress st;
     status := status st ++ [Success]; requested := requested st |}.

(** The run on an uploaded column. *)
Definition run (net : network) (api_key : string) (col : list cell) : run_state :=
  validate net api_key (gstins col).

(** The ["GSTIN"] entry of a record. *)
Definition record_gstin (r : record) : option value := dict_get r "GSTIN".

End Batch.

(** ** The report *)
Module Report.
Import Py Lookup Sheet.

(** The columns of [pd.DataFrame(results)]: the keys of the records, each
    where it first appears. *)
Definition dataframe_columns (results : list record) : list string :=
  Batch.unique (concat ((λ r : record, fst <$> r) <$> results)).

(** [len(str(cell.value)) if cell.value else 0] *)
Definition cell_len (c : cell) : Z :=
  if truthy c then Z.of_nat (String.length (str c)) else 0.

(** The width given to a worksheet column (its cells from the top, the
    header first): [max(...) + 2]. *)
Definition column_width (col : list cell) : option Z :=
  max_len ← Py.max (cell_len <$> col);
  Some (max_len + 2).

(** A column of the sheet written from [results]: a header named after
    a column of the frame, then one cell per record. *)
Definition report_column (results : list record) (col : list cell) : Prop :=
  ∃ name cells,
    col = CStr name :: cells ∧ name ∈ dataframe_columns results
    ∧ length cells = length results.

End Report.

(** ** What the specification says, in its own words *)
Module Spec.
Import Py Sheet.

(** The set of trimmed, non-empty identifiers of the input. *)
Definition identifiers (col : list cell) : gset string :=
  list_to_set (filter (λ s, s ≠ "") (strip <$> (str <$> Batch.dropna col))).

(** An entry that is missing, empty or whitespace-only. *)
Definition blank (c : cell) : Prop :=
  isna c = true ∨ strip (str c) = "".

(** Letter case folded, as a case-normalised comparison would. *)
Definition lower_char (c : ascii) : ascii :=
  let n := nat_of_ascii c in
  if ((65 <=? n) && (n <=? 90))%nat then ascii_of_nat (n + 32) else c.

Fixpoint lower (s : string) : string :=
  match s with
  | EmptyString => EmptyString
  | String c rest => String (lower_char c) (lower rest)
  end.

(** [n] is the length of the longest stringified cell of a column: no
    cell of the column has a longer text, and some cell has a text of
    that length. *)
Definition longest (col : list cell) (n : Z) : Prop :=
  Forall (λ c, Z.of_nat (String.length (str c)) ≤ n) col
  ∧ Exists (λ c, Z.of_nat (String.length (str c)) = n) col.

(** The value under a source key, the empty string when it is missing. *)
Definition field (d : dict) (k : string) : value :=
  match dict_get d k with
  | Some v => v
  | None => VStr ""
  end.

(** floor(k / n * 100) *)
Definition percent (k n : Z) : Z := (k * 100) / n.

(** [int(idx / total * 100)] is a value, and the floor or one below it. *)
Definition progress_close (idx total : Z) : bool :=
  match int_of_float (Batch.progress_float idx total) with
  | Some v => (percent idx total - 1 <=? v) && (v <=? percent idx total)
  | None => false
  end.

End Spec.

(** ** Services used in the examples *)
Module Mock.
Import Py Lookup.

(** Answers every request with HTTP 200 and [{"flag": false}]. *)
Definition unknown : network :=
  fun _ _ => Ok {| status_code := 200; json := Ok (VDict [("flag", VBool false)]) |}.

(** Times out on the second request of a run, and only on that one. *)
Definition flaky : network :=
  fun log u =>
    if (length log =? 1)%nat
    then Raise (RequestException "Read timed out. (read timeout=10)")
    else unknown log u.

(** Answers with a fixed status code and a fixed [r.json()]. *)
Definition fixed (code : Z) (body : result value) : network :=
  fun _ _ => Ok {| status_code := code; json := body |}.

(** The data object of the specification's example. *)
Definition acme : value :=
  VDict [("sts", VStr "Active"); ("lgnm", VStr "ACME PVT LTD");
         ("nba", VList [VStr "Retail"; VStr "Wholesale"]);
         ("pradr", VDict [("addr", VStr "123 Main St")])].

End Mock.

(** ** The script around the run *)
Module Script.
Import Py Lookup Sheet Batch.

(** A frame as [pd.read_excel] gives it: its columns in order, each a label
    (a header cell) and the cells below it. *)
Abbreviation frame := (list (cell * list cell)).

(** What reading the uploaded file gives: the exception's text, or the
    frame of the first sheet. *)
Inductive upload : Type :=
| Unreadable (msg : string)
| Readable (df : frame).

(** ["GSTIN" == label] *)
Definition is_label (name : string) (label : cell) : bool :=
  match label with
  | CStr s => String.eqb s name
  | _ => false
  end.

(** [df[name]] when [name in df.columns]. *)
Fixpoint column (df : frame) (name : string) : option (list cell) :=
  match df with
  | [] => None
  | (label, cells) :: rest =>
      if is_label name label then Some cells else column rest name
  end.

(** f"Found **{len(gstins)} unique GSTINs** for validation." *)
Definition found_message (n : nat) : string :=
  "Found **" +:+ str_int (Z.of_nat n) +:+ " unique GSTINs** for validation.".

(** What the page shows below the two inputs. *)
Inductive page : Type :=
| Nothing                                      (* no file: neither branch runs *)
| KeyWarning                                   (* st.warning: enter your API key *)
| ReadError (msg : string)                     (* st.error, then st.stop() *)
| ColumnError                                  (* st.error, then st.stop() *)
| Found (info : string)                        (* st.info; button not pressed *)
| Validated (info : string) (st : run_state).  (* st.info, then the run *)

(** The script from [if uploaded_file and api_key:] on.  An uploaded file
    is truthy, a key is truthy when it is not empty. *)
Definition main (net : network) (api_key : string)
    (uploaded_file : option upload) (run_btn : bool) : page :=
  match uploaded_file with
  | None => Nothing
  | Some file =>
      if negb (String.eqb api_key "") then
        match file with
        | Unreadable msg => ReadError ("Error reading Excel: " +:+ msg)
        | Readable df =>
            match column df "GSTIN" with
            | None => ColumnError
            | Some col =>
                let gs := gstins col in
                let info := found_message (length gs) in
                if run_btn then Validated info (validate net api_key gs)
                else Found info
            end
        end
      else KeyWarning
  end.

(** The URLs a page load has requested. *)
Definition page_requested (p : page) : list string :=
  match p with
  | Validated _ st => requested st
  | _ => []
  end.

End Script.

(** ** The name of the downloaded file *)
Module Download.
Import Py.

(** [datetime.now()], to the second. *)
Record datetime : Type := {
  year : Z; month : Z; day : Z; hour : Z; minute : Z; second : Z
}.

(** A two-digit field of [strftime]: [%m], [%d], [%H], [%M], [%S]. *)
Definition pad2 (n : Z) : string :=
  if n <? 10 then "0" +:+ str_int n else str_int n.

(** [d.strftime('%Y%m%d_%H%M%S')], for a year of four digits. *)
Definition strftime (d : datetime) : string :=
  str_int (year d) +:+ pad2 (month d) +:+ pad2 (day d) +:+ "_"
    +:+ pad2 (hour d) +:+ pad2 (minute d) +:+ pad2 (second d).

(** f"GSTIN_Validation_Report_{...}.xlsx" *)
Definition file_name (d : datetime) : string :=
  "GSTIN_Validation_Report_" +:+ strftime d +:+ ".xlsx".

(** The fields of a date and time of day, the year of four digits. *)
Definition in_range (d : datetime) : Prop :=
  1000 ≤ year d ≤ 9999 ∧ 1 ≤ month d ≤ 12 ∧ 1 ≤ day d ≤ 31
  ∧ 0 ≤ hour d ≤ 23 ∧ 0 ≤ minute d ≤ 59 ∧ 0 ≤ second d ≤ 59.

End Download.

(** ** Trimmed strings *)
Module Trimmed.

(** The string begins with a whitespace character. *)
Definition starts_space (s : string) : bool :=
  match s with
  | EmptyString => false
  | String c _ => Py.is_space c
  end.

(** The string ends with a whitespace character. *)
Fixpoint ends_space (s : string) : bool :=
  match s with
  | EmptyString => false
  | String c EmptyString => Py.is_space c
  | String _ rest => ends_space rest
  end.

End Trimmed.

(** * Properties *)

(** ** Deduplication *)
Section Unique.
Import Batch.

Lemma unique_from_elem (seen : gset string) (l : list string) (x : string) :
  x ∈ unique_from seen l ↔ x ∈ l ∧ x ∉ seen.
Proof.
  revert seen; induction l as [|y l IH]; intros seen; simpl.
  - set_solver.
  - case_decide as Hy; [rewrite IH | rewrite elem_of_cons, IH];
      rewrite elem_of_cons.
    + split; [tauto|]. intros [[->|Hx] Hn]; [contradiction | tauto].
    + rewrite elem_of_union, elem_of_singleton.
      destruct (decide (x = y)) as [->|Hne]; tauto.
Qed.

Lemma unique_from_NoDup (seen : gset string) (l : list string) :
  NoDup (unique_from seen l).
Proof.
  revert seen; induction l as [|y l IH]; intros seen; simpl.
  - constructor.
  - case_decide; [apply IH|].
    constructor; [|apply IH].
    rewrite unique_from_elem. set_solver.
Qed.

Lemma unique_from_length (seen : gset string) (l : list string) :
  length (unique_from seen l) = size (list_to_set l ∖ seen : gset string).
Proof.
  revert seen; induction l as [|y l IH]; intros seen; simpl.
  - replace (∅ ∖ seen) with (∅ : gset string) by set_solver.
    by rewrite size_empty.
  - case_decide as Hy.
    + rewrite IH. f_equal. set_solver.
    + simpl. rewrite IH.
      replace (({[y]} ∪ list_to_set l) ∖ seen)
        with ({[y]} ∪ (list_to_set l ∖ ({[y]} ∪ seen)) : gset string).
      * rewrite (size_union ({[y]} : gset string)) by set_solver.
        by rewrite size_singleton.
      * apply set_eq. intros z. destruct (decide (z = y)); set_solver.
Qed.

Lemma unique_elem (l : list string) (x : string) : x ∈ unique l ↔ x ∈ l.
Proof. unfold unique. rewrite unique_from_elem. set_solver. Qed.

Lemma unique_NoDup (l : list string) : NoDup (unique l).
Proof. apply unique_from_NoDup. Qed.

Lemma unique_length (l : list string) :
  length (unique l) = size (list_to_set l : gset string).
Proof.
  unfold unique. rewrite unique_from_length. f_equal. set_solver.
Qed.

(** Dropping the empty string removes at most one element of the set. *)
Lemma size_without_empty (l : list string) :
  size (list_to_set l : gset string)
  = (size (list_to_set (filter (λ s, s ≠ "") l) : gset string)
     + (if decide ("" ∈ l) then 1 else 0))%nat.
Proof.
  case_decide as He.
  - replace (list_to_set l : gset string)
      with ({[""]} ∪ list_to_set (filter (λ s, s ≠ "") l) : gset string).
    + rewrite (size_union ({[""]} : gset string)).
      * rewrite size_singleton. lia.
      * apply disjoint_singleton_l.
        rewrite elem_of_list_to_set, list_elem_of_filter. tauto.
    + apply set_eq. intros z.
      rewrite elem_of_union, elem_of_singleton, !elem_of_list_to_set,
        list_elem_of_filter.
      destruct (decide (z = "")) as [->|Hz]; tauto.
  - rewrite Nat.add_0_r. f_equal. apply set_eq. intros z.
    rewrite !elem_of_list_to_set, list_elem_of_filter.
    destruct (decide (z = "")) as [->|Hz]; tauto.
Qed.

Lemma gstins_elem (col : list Sheet.cell) (s : string) :
  s ∈ gstins col
  ↔ ∃ c, c ∈ col ∧ Sheet.isna c = false ∧ Py.strip (Sheet.str c) = s.
Proof.
  unfold gstins, dropna. rewrite unique_elem, list_elem_of_fmap. split.
  - intros (t & -> & Ht). apply list_elem_of_fmap in Ht as (c & -> & Hc).
    apply list_elem_of_filter in Hc as [Hna Hc]. eauto.
  - intros (c & Hc & Hna & <-). eexists; split; [done|].
    apply list_elem_of_fmap. eexists; split; [done|].
    by apply list_elem_of_filter.
Qed.

End Unique.

(** ** The lookup client *)
Section Client.
Import Py Lookup.

Variable net : network.
Variable api_key : string.

Lemma get_gstin_details_unfold (gstin : string) (log : list string) :
  get_gstin_details net api_key gstin log
  = (try_except (r ← net log (url api_key gstin); on_response gstin r) (error gstin),
     log ++ [url api_key gstin]).
Proof. reflexivity. Qed.

Lemma get_gstin_details_log (gstin : string) (log : list string) :
  (get_gstin_details net api_key gstin log).2 = log ++ [url api_key gstin].
Proof. reflexivity. Qed.

(** Joining a list of strs never raises, and is [String.concat]. *)
Lemma join_items_strs (sep : string) (i : Z) (names : list string) :
  join_items sep i (VStr <$> names) = Ok (String.concat sep names).
Proof.
  revert i; induction names as [|s names IH]; intros i; [done|].
  destruct names as [|t names]; [done|].
  change (join_items sep i (VStr <$> s :: t :: names))
    with (u ← join_items sep (i + 1) (VStr <$> t :: names); Ok (s +:+ sep +:+ u)).
  by rewrite IH.
Qed.

(** Whatever [details] returns has the thirteen keys, the identifier
    first. *)
Lemma details_keys (gstin : string) (data : value) (rec : record) :
  details gstin data = Ok rec →
  rec.*1 = field_names ∧ dict_get rec "GSTIN" = Some (VStr gstin).
Proof.
  unfold details, mbind, result_bind, bind. intros H.
  repeat case_match; try discriminate.
  by injection H as <-.
Qed.

(** Every record has the identifier under ["GSTIN"], and only keys of
    [field_names]. *)
Lemma get_gstin_details_keys (gstin : string) (log : list string) :
  let rec := (get_gstin_details net api_key gstin log).1 in
  dict_get rec "GSTIN" = Some (VStr gstin) ∧ rec.*1 ⊆ field_names.
Proof.
  rewrite get_gstin_details_unfold. simpl.
  destruct (net log (url api_key gstin)) as [r|e]; simpl; [|by split; [|set_solver]].
  unfold on_response.
  destruct (status_code r =? 200); simpl; [|by split; [|set_solver]].
  destruct (json r) as [resp|e]; simpl; [|by split; [|set_solver]].
  destruct (get resp "flag" VNone) as [flag|e]; simpl; [|by split; [|set_solver]].
  destruct (truthy flag); simpl; [|by split; [|set_solver]].
  destruct (get resp "data" (VDict [])) as [data|e]; simpl; [|by split; [|set_solver]].
  destruct (details gstin data) as [rec|e] eqn:Hd; simpl; [|by split; [|set_solver]].
  apply details_keys in Hd as [-> ->]. done.
Qed.

Lemma field_default (d : dict) (k : string) :
  default (VStr "") (dict_get d k) = Spec.field d k.
Proof. unfold Spec.field. by destruct (dict_get d k). Qed.

(** C5: on HTTP 200 with a truthy flag, the example data of the
    specification gives a record with Status "Active", Legal_Name
    "ACME PVT LTD", Nature_of_Business "Retail, Wholesale" and
    Principal_Place "123 Main St"; in general each output field holds
    the value under its source key, or the empty string when the key is
    missing, the principal place is read from the nested address object,
    and the nature-of-business list is joined with ", ", giving the empty
    string when it is absent or empty. *)
Theorem success_record (gstin : string) (log : list string) (r : response)
    (resp : dict) :
  net log (url api_key gstin) = Ok r →
  status_code r = 200 →
  json r = Ok (VDict resp) →
  truthy (default VNone (dict_get resp "flag")) = true →
  (dict_get resp "data" = Some Mock.acme →
   (get_gstin_details net api_key gstin log).1
   = [("GSTIN", VStr gstin);
      ("Status", VStr "Active");
      ("Legal_Name", VStr "ACME PVT LTD");
      ("Trade_Name", VStr "");
      ("Constitution", VStr "");
      ("Center_Jurisdiction", VStr "");
      ("State_Jurisdiction", VStr "");
      ("Principal_Place", VStr "123 Main St");
      ("Registration_Date", VStr "");
      ("Cancellation_Date", VStr "");
      ("Nature_of_Business", VStr "Retail, Wholesale");
      ("State_Code", VStr "");
      ("Last_Updated", VStr "")])
  ∧ (∀ (d pradr : dict) (nba : list string),
       default (VDict []) (dict_get resp "data") = VDict d →
       default (VDict []) (dict_get d "pradr") = VDict pradr →
       default (VList []) (dict_get d "nba") = VList (VStr <$> nba) →
       (get_gstin_details net api_key gstin log).1
       = [("GSTIN", VStr gstin);
          ("Status", Spec.field d "sts");
          ("Legal_Name", Spec.field d "lgnm");
          ("Trade_Name", Spec.field d "tradeNam");
          ("Constitution", Spec.field d "ctb");
          ("Center_Jurisdiction", Spec.field d "ctj");
          ("State_Jurisdiction", Spec.field d "stj");
          ("Principal_Place", Spec.field pradr "addr");
          ("Registration_Date", Spec.field d "rgdt");
          ("Cancellation_Date", Spec.field d "cxdt");
          ("Nature_of_Business", VStr (String.concat ", " nba));
          ("State_Code", Spec.field d "stcd");
          ("Last_Updated", Spec.field d "lstupdt")]
       ∧ (∀ k, dict_get d k = None → Spec.field d k = VStr "")
       ∧ (dict_get d "pradr" = None ∨ dict_get pradr "addr" = None →
          Spec.field pradr "addr" = VStr "")
       ∧ (dict_get d "nba" = None ∨ dict_get d "nba" = Some (VList []) →
          String.concat ", " nba = "")).
Proof.
  intros Hnet Hcode Hjson Hflag.
  rewrite get_gstin_details_unfold, Hnet. cbn [fst mbind result_bind bind try_except].
  unfold on_response. rewrite Hcode, Hjson.
  cbn [Z.eqb Pos.eqb mbind result_bind bind get]. rewrite Hflag. split.
  - intros ->. reflexivity.
  - intros d pradr nba -> Hp Hn. unfold details.
    cbn [mbind result_bind bind get]. rewrite Hp, Hn.
    cbn [mbind result_bind bind get join]. rewrite join_items_strs.
    cbn [mbind result_bind bind try_except]. rewrite !field_default.
    split; [reflexivity|]. split; [|split].
    + intros k Hk. unfold Spec.field. by rewrite Hk.
    + intros [Hk|Hk].
      * rewrite Hk in Hp. by injection Hp as <-.
      * unfold Spec.field. by rewrite Hk.
    + intros [Hk|Hk]; rewrite Hk in Hn; cbn in Hn;
        injection Hn as Hn; symmetry in Hn;
        apply fmap_nil_inv in Hn; by subst.
Qed.

(** C6, as the code has it: on HTTP 200 with a body that parses to a
    JSON object whose flag is falsy or absent, the record is exactly
    GSTIN and Status "Invalid / Not Found". *)
Theorem not_found_record (gstin : string) (log : list string) (r : response)
    (resp : dict) :
  net log (url api_key gstin) = Ok r →
  status_code r = 200 →
  json r = Ok (VDict resp) →
  truthy (default VNone (dict_get resp "flag")) = false →
  get_gstin_details net api_key gstin log
  = ([("GSTIN", VStr gstin); ("Status", VStr "Invalid / Not Found")],
     log ++ [url api_key gstin]).
Proof.
  intros Hnet Hcode Hjson Hflag.
  rewrite get_gstin_details_unfold, Hnet. cbn [mbind result_bind bind].
  unfold on_response. rewrite Hcode, Hjson.
  cbn [Z.eqb Pos.eqb mbind result_bind bind get]. by rewrite Hflag.
Qed.

(** C7: on a status code other than 200 the record is exactly GSTIN and
    Status "API Error <code>", the code written in decimal; HTTP 500
    gives "API Error 500". *)
Theorem api_error_record (gstin : string) (log : list string) (r : response) :
  net log (url api_key gstin) = Ok r →
  status_code r ≠ 200 →
  get_gstin_details net api_key gstin log
  = ([("GSTIN", VStr gstin);
      ("Status", VStr ("API Error " +:+ str_int (status_code r)))],
     log ++ [url api_key gstin])
  ∧ (status_code r = 500 →
     (get_gstin_details net api_key gstin log).1
     = [("GSTIN", VStr gstin); ("Status", VStr "API Error 500")]).
Proof.
  intros Hnet Hcode.
  rewrite get_gstin_details_unfold, Hnet. cbn [mbind result_bind bind].
  unfold on_response. apply Z.eqb_neq in Hcode as ->.
  split; [reflexivity|]. by intros ->.
Qed.

(** C10: on HTTP 200 with a body that is not JSON, the decoder's
    exception is caught by the same handler: the record is GSTIN and a
    Status that starts with "Error: ", neither a success record nor an
    "API Error" one. *)
Theorem json_error_record (gstin : string) (log : list string) (r : response)
    (e : exception) :
  net log (url api_key gstin) = Ok r →
  status_code r = 200 →
  json r = Raise e →
  ∃ st,
    get_gstin_details net api_key gstin log
    = ([("GSTIN", VStr gstin); ("Status", VStr st)], log ++ [url api_key gstin])
    ∧ st = "Error: " +:+ exn_str e
    ∧ startswith st "Error: " = true
    ∧ startswith st "API Error" = false.
Proof.
  intros Hnet Hcode Hjson. exists ("Error: " +:+ exn_str e).
  rewrite get_gstin_details_unfold, Hnet. cbn [mbind result_bind bind].
  unfold on_response. rewrite Hcode, Hjson.
  repeat split; reflexivity.
Qed.

(** The handler at work: a GET that raises gives the error record. *)
Lemma transport_error_record (gstin : string) (log : list string) (e : exception) :
  net log (url api_key gstin) = Raise e →
  get_gstin_details net api_key gstin log
  = ([("GSTIN", VStr gstin); ("Status", VStr ("Error: " +:+ exn_str e))],
     log ++ [url api_key gstin]).
Proof. intros Hnet. by rewrite get_gstin_details_unfold, Hnet. Qed.

End Client.

(** ** Distinct identifiers, distinct URLs *)
Section Urls.
Import Lookup.

Lemma append_inj_r (s t1 t2 : string) : s +:+ t1 = s +:+ t2 → t1 = t2.
Proof.
  induction s as [|c s IH]; [done|]. simpl. intros H. injection H as H. by apply IH.
Qed.

Lemma url_inj (api_key : string) : Inj (=) (=) (url api_key).
Proof.
  intros g1 g2 H. unfold url in H.
  by apply append_inj_r, append_inj_r, append_inj_r in H.
Qed.

End Urls.

(** ** The batch run *)
Section Run.
Import Py Lookup Sheet Batch.

Variable net : network.
Variable api_key : string.

(** The loop only appends: to [results] the record of each lookup, made
    with the URLs of the lookups before it already requested. *)
Lemma loop_results (total idx : Z) (gs : list string) (st : run_state) :
  results (loop net api_key total idx gs st)
  = results st
    ++ imap (λ i g, (get_gstin_details net api_key g
                       (requested st ++ (url api_key <$> take i gs))).1) gs.
Proof.
  revert idx st; induction gs as [|g gs IH]; intros idx st.
  - simpl. by rewrite app_nil_r.
  - simpl. rewrite IH. simpl. rewrite <- app_assoc. f_equal. simpl.
    rewrite app_nil_r. f_equal. apply imap_ext. intros i x _. simpl.
    by rewrite <- app_assoc.
Qed.

Lemma loop_requested (total idx : Z) (gs : list string) (st : run_state) :
  requested (loop net api_key total idx gs st)
  = requested st ++ (url api_key <$> gs).
Proof.
  revert idx st; induction gs as [|g gs IH]; intros idx st.
  - simpl. by rewrite app_nil_r.
  - simpl. rewrite IH. simpl. by rewrite <- app_assoc.
Qed.

Lemma loop_progress (total idx : Z) (gs : list string) (st : run_state) :
  progress (loop net api_key total idx gs st)
  = progress st
    ++ imap (λ i _, progress_value (idx + Z.of_nat i) total) gs.
Proof.
  revert idx st; induction gs as [|g gs IH]; intros idx st.
  - simpl. by rewrite app_nil_r.
  - simpl. rewrite IH. simpl. rewrite <- app_assoc, Z.add_0_r. do 2 f_equal.
    apply imap_ext. intros i x _. simpl. f_equal. lia.
Qed.

Lemma loop_status (total idx : Z) (gs : list string) (st : run_state) :
  status (loop net api_key total idx gs st)
  = status st
    ++ imap (λ i g, Info (validating_message g (idx + Z.of_nat i) total)) gs.
Proof.
  revert idx st; induction gs as [|g gs IH]; intros idx st.
  - simpl. by rewrite app_nil_r.
  - simpl. rewrite IH. simpl. rewrite <- app_assoc, Z.add_0_r. do 2 f_equal.
    apply imap_ext. intros i x _. simpl. do 2 f_equal. lia.
Qed.

(** The record at position [i] is the one of the [i]-th identifier. *)
Lemma validate_results_lookup (gs : list string) (i : nat) (g : string) :
  gs !! i = Some g →
  results (validate net api_key gs) !! i
  = Some (get_gstin_details net api_key g (url api_key <$> take i gs)).1.
Proof.
  intros Hi. unfold validate. simpl. rewrite loop_results. simpl.
  by rewrite list_lookup_imap, Hi.
Qed.

Lemma validate_results_length (gs : list string) :
  length (results (validate net api_key gs)) = length gs.
Proof.
  unfold validate. simpl. rewrite loop_results. simpl. apply length_imap.
Qed.

Lemma validate_requested (gs : list string) :
  requested (validate net api_key gs) = url api_key <$> gs.
Proof. unfold validate. simpl. by rewrite loop_requested. Qed.

(** The progress bar is set to 0, then to the value of each position. *)
Lemma validate_progress (gs : list string) :
  progress (validate net api_key gs)
  = 0 :: imap (λ i _, progress_value (1 + Z.of_nat i) (Z.of_nat (length gs))) gs.
Proof. unfold validate. simpl. by rewrite loop_progress. Qed.

(** The identifiers of the rows are the identifiers looked up, in order. *)
Lemma validate_results_gstin (gs : list string) :
  record_gstin <$> results (validate net api_key gs) = (λ g, Some (VStr g)) <$> gs.
Proof.
  apply list_eq. intros i. rewrite !list_lookup_fmap.
  destruct (gs !! i) as [g|] eqn:Hi.
  - rewrite (validate_results_lookup gs i g Hi). simpl. f_equal.
    apply (get_gstin_details_keys net api_key g).
  - rewrite (lookup_ge_None_2 (results _)); [done|].
    rewrite validate_results_length. by apply lookup_ge_None.
Qed.

Lemma gstins_all_missing (col : list cell) :
  Forall (λ c, isna c = true) col → gstins col = [].
Proof.
  intros Hall. unfold gstins, dropna.
  replace (filter (λ c, isna c = false) col) with (@nil cell); [done|].
  symmetry. induction Hall as [|c col Hc _ IH]; [done|].
  rewrite filter_cons_False; [done|]. by rewrite Hc.
Qed.

(** C1, as the code has it: the run gives exactly one record per unique
    trimmed identifier of the entries that are not missing, and no
    identifier has two records; their number is the number of unique,
    non-empty, trimmed identifiers of the input, plus one when some entry
    that is not missing is blank, whose identifier is the empty string. *)
Theorem result_count (col : list cell) :
  let rs := results (run net api_key col) in
  length rs
  = (size (Spec.identifiers col)
     + (if decide (Exists (λ c, isna c = false ∧ strip (str c) = "") col)
        then 1 else 0))%nat
  ∧ record_gstin <$> rs = (λ g, Some (VStr g)) <$> gstins col
  ∧ NoDup (record_gstin <$> rs)
  ∧ ∀ s, Some (VStr s) ∈ record_gstin <$> rs
         ↔ ∃ c, c ∈ col ∧ isna c = false ∧ strip (str c) = s.
Proof.
  assert (Hinj : Inj (=) (=) (λ g : string, Some (VStr g))).
  { intros a b Hab. by injection Hab. }
  unfold run. cbn zeta. rewrite validate_results_gstin. repeat split.
  - rewrite validate_results_length. unfold gstins at 1.
    rewrite unique_length, size_without_empty. unfold Spec.identifiers.
    f_equal. destruct (decide ("" ∈ _)) as [Hin|Hin];
      destruct (decide (Exists _ col)) as [Hex|Hex]; try done.
    + exfalso. apply Hex, Exists_exists.
      apply (proj2 (unique_elem _ _)), (proj1 (gstins_elem col _)) in Hin
        as (c & Hc & Hna & Hs). eauto.
    + exfalso. apply Hin. apply Exists_exists in Hex as (c & Hc & Hna & Hs).
      apply (proj1 (unique_elem _ _)), (proj2 (gstins_elem col _)). eauto.
  - apply (NoDup_fmap_2 _), unique_NoDup.
  - intros Hs. apply list_elem_of_fmap in Hs as (g & Heq & Hg).
    injection Heq as ->. exact (proj1 (gstins_elem col g) Hg).
  - intros Hs. apply list_elem_of_fmap. exists s. split; [done|].
    exact (proj2 (gstins_elem col s) Hs).
Qed.

(** One entry, one lookup and one row for the trimmed text of an entry
    that is not missing: each sits at one position and nowhere else. *)
Lemma entry_once (col : list cell) (c : cell) :
  c ∈ col → isna c = false →
  ∃ i,
    (∀ j, gstins col !! j = Some (strip (str c)) ↔ j = i)
    ∧ (∀ j, requested (run net api_key col) !! j
            = Some (url api_key (strip (str c))) ↔ j = i)
    ∧ (∀ j, record_gstin <$> (results (run net api_key col) !! j)
            = Some (Some (VStr (strip (str c)))) ↔ j = i).
Proof.
  intros Hc Hna.
  assert (Hin : strip (str c) ∈ gstins col) by (apply gstins_elem; eauto).
  apply list_elem_of_lookup in Hin as [i Hi]. exists i.
  assert (Hone : ∀ j, gstins col !! j = Some (strip (str c)) ↔ j = i).
  { intros j. split; [|by intros ->].
    intros Hj. eapply NoDup_lookup; [apply unique_NoDup|exact Hj|exact Hi]. }
  split; [exact Hone|]. unfold run. split; intros j.
  - rewrite validate_requested, list_lookup_fmap, <- Hone.
    destruct (gstins col !! j) as [g|]; simpl; [|done]. split.
    + intros H. apply (inj Some), (url_inj api_key) in H. by subst.
    + by intros [= ->].
  - rewrite <- list_lookup_fmap, validate_results_gstin, list_lookup_fmap, <- Hone.
    destruct (gstins col !! j) as [g|]; simpl; [|done]. split.
    + by intros [= ->].
    + by intros [= ->].
Qed.

(** C2, as the code has it: deduplication compares the trimmed string
    forms exactly, letter case included.  Each of two entries that are
    not missing has a single entry in the unique list, a single lookup
    and a single row, all three at one position and nowhere else; the
    two entries share that position exactly when their trimmed forms are
    equal; and there are as many lookups and rows as entries of the
    unique list. *)
Theorem dedup_exact_match (col : list cell) (c1 c2 : cell) :
  c1 ∈ col → c2 ∈ col → isna c1 = false → isna c2 = false →
  ∃ i1 i2,
    (∀ j, gstins col !! j = Some (strip (str c1)) ↔ j = i1)
    ∧ (∀ j, gstins col !! j = Some (strip (str c2)) ↔ j = i2)
    ∧ (i1 = i2 ↔ strip (str c1) = strip (str c2))
    ∧ (∀ j, requested (run net api_key col) !! j
            = Some (url api_key (strip (str c1))) ↔ j = i1)
    ∧ (∀ j, requested (run net api_key col) !! j
            = Some (url api_key (strip (str c2))) ↔ j = i2)
    ∧ (∀ j, record_gstin <$> (results (run net api_key col) !! j)
            = Some (Some (VStr (strip (str c1)))) ↔ j = i1)
    ∧ (∀ j, record_gstin <$> (results (run net api_key col) !! j)
            = Some (Some (VStr (strip (str c2)))) ↔ j = i2)
    ∧ length (results (run net api_key col)) = length (gstins col)
    ∧ length (requested (run net api_key col)) = length (gstins col).
Proof.
  intros Hc1 Hc2 Hn1 Hn2.
  destruct (entry_once col c1 Hc1 Hn1) as (i1 & Hg1 & Hr1 & Hs1).
  destruct (entry_once col c2 Hc2 Hn2) as (i2 & Hg2 & Hr2 & Hs2).
  exists i1, i2. repeat split; try (by apply Hg1 || by apply Hg2
    || by apply Hr1 || by apply Hr2 || by apply Hs1 || by apply Hs2).
  - intros ->. pose proof (proj2 (Hg1 i2) eq_refl) as H1.
    pose proof (proj2 (Hg2 i2) eq_refl) as H2. congruence.
  - intros Heq. rewrite <- Heq in Hg2.
    apply Hg2. by apply Hg1.
  - unfold run. apply validate_results_length.
  - unfold run. rewrite validate_requested. apply length_fmap.
Qed.

(** C4, as the code has it: missing entries are dropped before
    deduplication, and an input whose entries are all missing gives an
    empty result list and no lookup at all. *)
Theorem all_missing_no_lookup (col : list cell) :
  Forall (λ c, isna c = true) col →
  results (run net api_key col) = [] ∧ requested (run net api_key col) = [].
Proof.
  intros Hall. unfold run. by rewrite (gstins_all_missing col Hall).
Qed.

(** C8: a GET that raises gives a record with only GSTIN and a Status
    "Error: " followed by the exception's message; nothing is raised
    out of the lookup, so in a batch the failed identifier has that
    record at its position, and the run still looks up every identifier
    and has a record for each. *)
Theorem failed_lookup_recorded :
  (∀ g log e,
      net log (url api_key g) = Raise e →
      get_gstin_details net api_key g log
      = ([("GSTIN", VStr g); ("Status", VStr ("Error: " +:+ exn_str e))],
         log ++ [url api_key g]))
  ∧ (∀ gs i g e,
        gs !! i = Some g →
        net (url api_key <$> take i gs) (url api_key g) = Raise e →
        results (validate net api_key gs) !! i
        = Some [("GSTIN", VStr g); ("Status", VStr ("Error: " +:+ exn_str e))]
        ∧ length (results (validate net api_key gs)) = length gs
        ∧ requested (validate net api_key gs) = url api_key <$> gs).
Proof.
  split.
  - intros g log e. apply transport_error_record.
  - intros gs i g e Hi Hnet. split; [|split].
    + rewrite (validate_results_lookup gs i g Hi).
      by rewrite (transport_error_record net api_key g _ e Hnet).
    + apply validate_results_length.
    + apply validate_requested.
Qed.

End Run.

(** ** The report *)
Section Report.
Import Py Lookup Sheet Batch.

(** What a left fold of [Z.max] returns: a bound of the start value and
    of every element, and one of them. *)
Lemma fold_max_spec (l : list Z) (a : Z) :
  let m := fold_left Z.max l a in
  a ≤ m ∧ Forall (λ x, x ≤ m) l ∧ (m = a ∨ m ∈ l).
Proof.
  revert a; induction l as [|x l IH]; intros a; simpl.
  - split; [lia|]. split; [constructor|by left].
  - destruct (IH (Z.max a x)) as (Hle & Hall & Hin). split; [lia|]. split.
    + constructor; [lia|done].
    + destruct Hin as [Hm|Hm]; [|right; by right].
      rewrite Hm.
      destruct (Z.max_spec a x) as [[_ ->]|[_ ->]]; [right; by left|by left].
Qed.

(** A float that compares equal to zero is one of the two zeros. *)
Lemma float_zero_inv (f : float) :
  PrimFloat.eqb f PrimFloat.zero = true → ∃ s, Prim2SF f = S754_zero s.
Proof.
  rewrite FloatAxioms.eqb_spec.
  change (Prim2SF PrimFloat.zero) with (S754_zero false).
  destruct (Prim2SF f) as [s|s| |s m e]; cbn; try discriminate.
  - by eexists.
  - by destruct s.
  - by destruct s.
Qed.

(** The text of a falsy cell has at most five characters ("False"). *)
Lemma falsy_short (c : cell) :
  truthy c = false → (String.length (str c) ≤ 5)%nat.
Proof.
  destruct c as [|b|z|f repr|s]; simpl.
  - lia.
  - intros ->. simpl. lia.
  - intros Hz. apply negb_false_iff, Z.eqb_eq in Hz as ->. cbn. lia.
  - intros Hf. apply negb_false_iff, float_zero_inv in Hf as [sg ->].
    destruct sg; simpl; lia.
  - intros Hs. apply negb_false_iff, String.eqb_eq in Hs as ->. simpl. lia.
Qed.

(** Below a header of five characters or more, counting falsy cells as 0
    does not change the maximum. *)
Lemma fold_max_cell_len (cells : list cell) (a : Z) :
  5 ≤ a →
  fold_left Z.max (Report.cell_len <$> cells) a
  = fold_left Z.max ((λ c, Z.of_nat (String.length (str c))) <$> cells) a.
Proof.
  revert a; induction cells as [|c cells IH]; intros a Ha; [done|].
  simpl. rewrite <- IH by lia. f_equal. unfold Report.cell_len.
  destruct (truthy c) eqn:Hc; [done|].
  apply falsy_short in Hc. lia.
Qed.

Lemma field_names_long (name : string) :
  name ∈ field_names → (5 ≤ String.length name)%nat.
Proof.
  unfold field_names. rewrite !elem_of_cons, elem_of_nil.
  intros H. repeat (destruct H as [->|H]; [simpl; lia|]). done.
Qed.

(** The frame of a run has no column outside [field_names]. *)
Lemma dataframe_columns_fields (net : network) (api_key : string)
    (gs : list string) (name : string) :
  name ∈ Report.dataframe_columns (results (validate net api_key gs)) →
  name ∈ field_names.
Proof.
  unfold Report.dataframe_columns. rewrite unique_elem, list_elem_of_In, in_concat.
  intros (keys & Hkeys & Hname).
  apply list_elem_of_In in Hkeys. apply list_elem_of_In in Hname.
  apply list_elem_of_fmap in Hkeys as (rec & -> & Hrec).
  apply list_elem_of_lookup in Hrec as [i Hi].
  destruct (gs !! i) as [g|] eqn:Hg.
  - rewrite (validate_results_lookup net api_key gs i g Hg) in Hi.
    injection Hi as <-.
    exact (proj2 (get_gstin_details_keys net api_key g
                    (url api_key <$> take i gs)) name Hname).
  - apply lookup_ge_None in Hg. apply lookup_lt_Some in Hi.
    rewrite validate_results_length in Hi. lia.
Qed.

(** C9: in the sheet written from the results of a run, the width given
    to a column is the length of the longest stringified cell of that
    column, the header included, plus 2: no cell of the column has a
    longer text than the width less 2, and some cell has a text of
    exactly that length.  The width depends on that column alone. *)
Theorem column_width_longest (net : network) (api_key : string)
    (input : list cell) (col : list cell) :
  Report.report_column (results (run net api_key input)) col →
  ∃ n,
    Spec.longest col n
    ∧ (∀ n', Spec.longest col n' → n' = n)
    ∧ Report.column_width col = Some (n + 2).
Proof.
  intros (name & cells & -> & Hname & _).
  apply dataframe_columns_fields, field_names_long in Hname.
  set (slen := λ c : cell, Z.of_nat (String.length (str c))).
  destruct (fold_max_spec (slen <$> cells) (slen (CStr name))) as (Hle & Hall & Hin).
  set (m := fold_left Z.max (slen <$> cells) (slen (CStr name))) in *.
  assert (Hlongest : Spec.longest (CStr name :: cells) m).
  { split.
    - constructor; [exact Hle|]. by rewrite Forall_fmap in Hall.
    - destruct Hin as [Hm|Hm].
      + apply Exists_cons_hd. by rewrite Hm.
      + apply Exists_cons_tl. apply list_elem_of_fmap in Hm as (c & Hc & Hin).
        apply Exists_exists. by exists c. }
  exists m. split; [exact Hlongest|]. split.
  - intros n' [Hall' Hex']. destruct Hlongest as [Hallm Hexm].
    apply Exists_exists in Hex' as (c' & Hc' & Hn').
    apply Exists_exists in Hexm as (c & Hc & Hm).
    rewrite Forall_forall in Hall', Hallm.
    specialize (Hall' c Hc). specialize (Hallm c' Hc'). simpl in *. lia.
  - unfold Report.column_width.
    change (Py.max (Report.cell_len <$> CStr name :: cells))
      with (Some (fold_left Z.max (Report.cell_len <$> cells)
                    (Report.cell_len (CStr name)))).
    cbn [mbind option_bind].
    assert (Hh : Report.cell_len (CStr name) = slen (CStr name)).
    { unfold Report.cell_len, slen. simpl.
      destruct name; [simpl in Hname; lia|done]. }
    rewrite Hh, fold_max_cell_len by (unfold slen; simpl; lia). done.
Qed.

End Report.

(** ** Progress *)
Section Progress.
Import Py Batch.

(** Checked by evaluation for every position of every run of at most 100
    identifiers. *)
Lemma progress_small (idx total : Z) :
  1 ≤ idx ≤ total → total ≤ 100 →
  ∃ v, int_of_float (progress_float idx total) = Some v
       ∧ Spec.percent idx total - 1 ≤ v ≤ Spec.percent idx total.
Proof.
  intros Hidx Htotal.
  assert (Hall : Forall (λ n, Forall (λ k, Spec.progress_close k n = true) (seqZ 1 n))
                   (seqZ 1 100)).
  { apply (bool_decide_unpack _). vm_compute. exact I. }
  rewrite Forall_forall in Hall.
  specialize (Hall total). rewrite elem_of_seqZ in Hall.
  specialize (Hall ltac:(lia)). rewrite Forall_forall in Hall.
  specialize (Hall idx). rewrite elem_of_seqZ in Hall.
  specialize (Hall ltac:(lia)). unfold Spec.progress_close in Hall.
  destruct (int_of_float (progress_float idx total)) as [v|]; [|done].
  exists v. split; [done|]. apply andb_true_iff in Hall as [H1 H2]. lia.
Qed.

(** Over such a run the values given to the progress bar never go down. *)
Lemma progress_monotone_small (idx total : Z) :
  1 ≤ idx → idx + 1 ≤ total → total ≤ 100 →
  progress_value idx total ≤ progress_value (idx + 1) total.
Proof.
  intros H1 H2 H3.
  destruct (progress_small idx total) as (v & Hv & Hlo & Hhi); [lia..|].
  destruct (progress_small (idx + 1) total) as (w & Hw & Hlo' & Hhi'); [lia..|].
  unfold progress_value. rewrite Hv, Hw. simpl.
  assert (Hall : Forall (λ n, Forall (λ k, (progress_value k n <=? progress_value (k + 1) n) = true)
                                (seqZ 1 (n - 1)))
                   (seqZ 1 100)).
  { apply (bool_decide_unpack _). vm_compute. exact I. }
  rewrite Forall_forall in Hall.
  specialize (Hall total). rewrite elem_of_seqZ in Hall.
  specialize (Hall ltac:(lia)). rewrite Forall_forall in Hall.
  specialize (Hall idx). rewrite elem_of_seqZ in Hall.
  specialize (Hall ltac:(lia)). unfold progress_value in Hall.
  rewrite Hv, Hw in Hall. simpl in Hall. lia.
Qed.

(** C3 at 29 of 50: the double nearest to 29/50, times 100, rounds to
    57.99999999999999, which [int] truncates to 57, where
    floor(29 / 50 * 100) is 58; the progress bar of a run over 50
    identifiers is given 57 after the 29th lookup. *)
Theorem progress_29_of_50 :
  progress_value 29 50 = 57
  ∧ Spec.percent 29 50 = 58
  ∧ progress (run Mock.unknown "key" (Sheet.CInt <$> seqZ 1 50)) !! 29%nat = Some 57.
Proof. repeat split; vm_compute; reflexivity. Qed.

End Progress.

(** ** The theorems at concrete inputs *)
Section Examples.
Import Py Lookup Sheet Batch.

Lemma success_record_witness :
  (get_gstin_details
     (Mock.fixed 200 (Ok (VDict [("flag", VBool true); ("data", Mock.acme)])))
     "key" "27AAPFU0939F1ZV" []).1
  = [("GSTIN", VStr "27AAPFU0939F1ZV");
     ("Status", VStr "Active");
     ("Legal_Name", VStr "ACME PVT LTD");
     ("Trade_Name", VStr "");
     ("Constitution", VStr "");
     ("Center_Jurisdiction", VStr "");
     ("State_Jurisdiction", VStr "");
     ("Principal_Place", VStr "123 Main St");
     ("Registration_Date", VStr "");
     ("Cancellation_Date", VStr "");
     ("Nature_of_Business", VStr "Retail, Wholesale");
     ("State_Code", VStr "");
     ("Last_Updated", VStr "")]
  ∧ (get_gstin_details
       (Mock.fixed 200 (Ok (VDict [("flag", VInt 1);
                                   ("data", VDict [("lgnm", VStr "ACME")])])))
       "key" "27AAPFU0939F1ZV" []).1
    = [("GSTIN", VStr "27AAPFU0939F1ZV");
       ("Status", VStr "");
       ("Legal_Name", VStr "ACME");
       ("Trade_Name", VStr "");
       ("Constitution", VStr "");
       ("Center_Jurisdiction", VStr "");
       ("State_Jurisdiction", VStr "");
       ("Principal_Place", VStr "");
       ("Registration_Date", VStr "");
       ("Cancellation_Date", VStr "");
       ("Nature_of_Business", VStr "");
       ("State_Code", VStr "");
       ("Last_Updated", VStr "")].
Proof.
  split.
  - apply (proj1 (success_record
                    (Mock.fixed 200 (Ok (VDict [("flag", VBool true); ("data", Mock.acme)])))
                    "key" "27AAPFU0939F1ZV" []
                    {| status_code := 200;
                       json := Ok (VDict [("flag", VBool true); ("data", Mock.acme)]) |}
                    [("flag", VBool true); ("data", Mock.acme)]
                    eq_refl eq_refl eq_refl eq_refl)).
    reflexivity.
  - apply (proj1 (proj2 (success_record
                    (Mock.fixed 200 (Ok (VDict [("flag", VInt 1);
                                                ("data", VDict [("lgnm", VStr "ACME")])])))
                    "key" "27AAPFU0939F1ZV" []
                    {| status_code := 200;
                       json := Ok (VDict [("flag", VInt 1);
                                          ("data", VDict [("lgnm", VStr "ACME")])]) |}
                    [("flag", VInt 1); ("data", VDict [("lgnm", VStr "ACME")])]
                    eq_refl eq_refl eq_refl eq_refl)
                  [("lgnm", VStr "ACME")] [] [] eq_refl eq_refl eq_refl)).
Defined.

Lemma not_found_record_witness :
  get_gstin_details Mock.unknown "key" "27AAPFU0939F1ZV" []
  = ([("GSTIN", VStr "27AAPFU0939F1ZV"); ("Status", VStr "Invalid / Not Found")],
     ["http://sheet.gstincheck.co.in/check/key/27AAPFU0939F1ZV"]).
Proof.
  apply (not_found_record Mock.unknown "key" "27AAPFU0939F1ZV" []
           {| status_code := 200; json := Ok (VDict [("flag", VBool false)]) |}
           [("flag", VBool false)]); reflexivity.
Defined.

(** C6 as stated fails on a body that is JSON but not an object: the
    flag is absent, and the record is an error record. *)
Lemma flag_absent_not_object :
  json {| status_code := 200; json := Ok (VList []) |} = Ok (VList [])
  ∧ (get_gstin_details (Mock.fixed 200 (Ok (VList []))) "key" "27AAPFU0939F1ZV" []).1
    = [("GSTIN", VStr "27AAPFU0939F1ZV");
       ("Status", VStr "Error: 'list' object has no attribute 'get'")]
  ∧ (get_gstin_details (Mock.fixed 200 (Ok (VList []))) "key" "27AAPFU0939F1ZV" []).1
    ≠ [("GSTIN", VStr "27AAPFU0939F1ZV"); ("Status", VStr "Invalid / Not Found")].
Proof. repeat split. intros H. vm_compute in H. discriminate H. Qed.

Lemma api_error_record_witness :
  (get_gstin_details (Mock.fixed 500 (Raise (JSONDecodeError "Expecting value")))
     "key" "27AAPFU0939F1ZV" []).1
  = [("GSTIN", VStr "27AAPFU0939F1ZV"); ("Status", VStr "API Error 500")].
Proof.
  apply (proj2 (api_error_record
                  (Mock.fixed 500 (Raise (JSONDecodeError "Expecting value")))
                  "key" "27AAPFU0939F1ZV" []
                  {| status_code := 500; json := Raise (JSONDecodeError "Expecting value") |}
                  eq_refl ltac:(simpl; lia))).
  reflexivity.
Defined.

Lemma json_error_record_witness :
  ∃ st,
    get_gstin_details
      (Mock.fixed 200 (Raise (JSONDecodeError "Expecting value: line 1 column 1 (char 0)")))
      "key" "27AAPFU0939F1ZV" []
    = ([("GSTIN", VStr "27AAPFU0939F1ZV"); ("Status", VStr st)],
       ["http://sheet.gstincheck.co.in/check/key/27AAPFU0939F1ZV"])
    ∧ st = "Error: Expecting value: line 1 column 1 (char 0)"
    ∧ startswith st "Error: " = true
    ∧ startswith st "API Error" = false.
Proof.
  apply (json_error_record
           (Mock.fixed 200 (Raise (JSONDecodeError "Expecting value: line 1 column 1 (char 0)")))
           "key" "27AAPFU0939F1ZV" []
           {| status_code := 200;
              json := Raise (JSONDecodeError "Expecting value: line 1 column 1 (char 0)") |}
           (JSONDecodeError "Expecting value: line 1 column 1 (char 0)"));
    reflexivity.
Defined.

(** C1 as stated fails when an entry is blank: the blank one is looked up
    under the empty identifier and has a row. *)
Lemma result_count_blank :
  length (results (run Mock.unknown "key" [CStr "27AAPFU0939F1ZV"; CStr "   "])) = 2%nat
  ∧ size (Spec.identifiers [CStr "27AAPFU0939F1ZV"; CStr "   "]) = 1%nat
  ∧ length (results (run Mock.unknown "key" [CStr "27AAPFU0939F1ZV"; CStr "   "]))
    ≠ size (Spec.identifiers [CStr "27AAPFU0939F1ZV"; CStr "   "]).
Proof. repeat split; vm_compute; [reflexivity..|discriminate]. Qed.

(** C2 as stated fails: two identifiers that differ in letter case only
    stay two entries, with a lookup and a row each. *)
Lemma dedup_keeps_case :
  Spec.lower "27aapfu0939f1zv" = Spec.lower "27AAPFU0939F1ZV"
  ∧ gstins [CStr "27aapfu0939f1zv"; CStr "27AAPFU0939F1ZV"]
    = ["27aapfu0939f1zv"; "27AAPFU0939F1ZV"]
  ∧ length (results (run Mock.unknown "key"
                       [CStr "27aapfu0939f1zv"; CStr "27AAPFU0939F1ZV"])) = 2%nat
  ∧ length (requested (run Mock.unknown "key"
                         [CStr "27aapfu0939f1zv"; CStr "27AAPFU0939F1ZV"])) = 2%nat.
Proof. repeat split; vm_compute; reflexivity. Qed.

Lemma dedup_exact_match_witness :
  ∃ i1 i2,
    (∀ j, gstins [CStr " ab"; CStr "AB"; CStr "ab "] !! j = Some "ab" ↔ j = i1)
    ∧ (∀ j, gstins [CStr " ab"; CStr "AB"; CStr "ab "] !! j = Some "AB" ↔ j = i2)
    ∧ (i1 = i2 ↔ "ab" = "AB")
    ∧ (∀ j, requested (run Mock.unknown "key" [CStr " ab"; CStr "AB"; CStr "ab "]) !! j
            = Some (url "key" "ab") ↔ j = i1)
    ∧ (∀ j, requested (run Mock.unknown "key" [CStr " ab"; CStr "AB"; CStr "ab "]) !! j
            = Some (url "key" "AB") ↔ j = i2)
    ∧ (∀ j, record_gstin
              <$> (results (run Mock.unknown "key" [CStr " ab"; CStr "AB"; CStr "ab "]) !! j)
            = Some (Some (VStr "ab")) ↔ j = i1)
    ∧ (∀ j, record_gstin
              <$> (results (run Mock.unknown "key" [CStr " ab"; CStr "AB"; CStr "ab "]) !! j)
            = Some (Some (VStr "AB")) ↔ j = i2)
    ∧ length (results (run Mock.unknown "key" [CStr " ab"; CStr "AB"; CStr "ab "]))
      = length (gstins [CStr " ab"; CStr "AB"; CStr "ab "])
    ∧ length (requested (run Mock.unknown "key" [CStr " ab"; CStr "AB"; CStr "ab "]))
      = length (gstins [CStr " ab"; CStr "AB"; CStr "ab "]).
Proof.
  apply (dedup_exact_match Mock.unknown "key"
           [CStr " ab"; CStr "AB"; CStr "ab "] (CStr " ab") (CStr "AB"));
    [repeat constructor | repeat constructor | reflexivity | reflexivity].
Defined.

(** C4 as stated fails on a whitespace-only entry: it is not missing, its
    identifier is the empty string, and that one is looked up. *)
Lemma blank_is_looked_up :
  Forall Spec.blank [CNone; CStr "   "]
  ∧ results (run Mock.unknown "key" [CNone; CStr "   "])
    = [[("GSTIN", VStr ""); ("Status", VStr "Invalid / Not Found")]]
  ∧ requested (run Mock.unknown "key" [CNone; CStr "   "])
    = ["http://sheet.gstincheck.co.in/check/key/"].
Proof.
  split; [|split; vm_compute; reflexivity].
  apply Forall_cons; split; [by left|].
  apply Forall_cons; split; [by right|]. apply Forall_nil_2.
Qed.

Lemma all_missing_no_lookup_witness :
  results (run Mock.unknown "key" [CNone; CFloat PrimFloat.nan "nan"; CNone]) = []
  ∧ requested (run Mock.unknown "key" [CNone; CFloat PrimFloat.nan "nan"; CNone]) = [].
Proof.
  apply (all_missing_no_lookup Mock.unknown "key"
           [CNone; CFloat PrimFloat.nan "nan"; CNone]).
  repeat constructor.
Defined.

Lemma failed_lookup_recorded_witness :
  get_gstin_details Mock.flaky "key" "B" ["http://sheet.gstincheck.co.in/check/key/A"]
  = ([("GSTIN", VStr "B"); ("Status", VStr "Error: Read timed out. (read timeout=10)")],
     ["http://sheet.gstincheck.co.in/check/key/A";
      "http://sheet.gstincheck.co.in/check/key/B"])
  ∧ results (validate Mock.flaky "key" ["A"; "B"; "C"]) !! 1%nat
    = Some [("GSTIN", VStr "B");
            ("Status", VStr "Error: Read timed out. (read timeout=10)")]
  ∧ length (results (validate Mock.flaky "key" ["A"; "B"; "C"])) = 3%nat
  ∧ requested (validate Mock.flaky "key" ["A"; "B"; "C"])
    = url "key" <$> ["A"; "B"; "C"].
Proof.
  split.
  - apply (proj1 (failed_lookup_recorded Mock.flaky "key") "B"
             ["http://sheet.gstincheck.co.in/check/key/A"]
             (RequestException "Read timed out. (read timeout=10)")).
    reflexivity.
  - apply (proj2 (failed_lookup_recorded Mock.flaky "key") ["A"; "B"; "C"] 1%nat "B"
             (RequestException "Read timed out. (read timeout=10)"));
      reflexivity.
Defined.

Lemma column_width_longest_witness :
  ∃ n,
    Spec.longest [CStr "Status"; CStr "Invalid / Not Found"] n
    ∧ (∀ n', Spec.longest [CStr "Status"; CStr "Invalid / Not Found"] n' → n' = n)
    ∧ Report.column_width [CStr "Status"; CStr "Invalid / Not Found"]
      = Some (n + 2).
Proof.
  apply (column_width_longest Mock.unknown "key" [CStr "27AAPFU0939F1ZV"]).
  exists "Status", [CStr "Invalid / Not Found"].
  split; [reflexivity|]. split; [|reflexivity].
  vm_compute. repeat constructor.
Defined.

End Examples.

(** * Further properties of the script *)

(** ** The identifier pipeline *)
Section Pipeline.
Import Py Lookup Sheet Batch Trimmed.

Lemma filter_all {A} (P : A → Prop) `{!∀ x, Decision (P x)} (l : list A) :
  (∀ x, x ∈ l → P x) → filter P l = l.
Proof.
  induction l as [|x l IH]; intros Hall; [done|].
  rewrite filter_cons_True by (apply Hall; left).
  f_equal. apply IH. intros y Hy. apply Hall. by right.
Qed.

(** Values already seen are the ones filtered out of a fresh pass. *)
Lemma unique_from_union (s1 s2 : gset string) (l : list string) :
  unique_from (s1 ∪ s2) l = filter (λ x, x ∉ s1) (unique_from s2 l).
Proof.
  revert s2; induction l as [|x l IH]; intros s2; [done|]. simpl.
  destruct (decide (x ∈ s2)) as [H2|H2].
  - rewrite decide_True by set_solver. apply IH.
  - destruct (decide (x ∈ s1)) as [H1|H1].
    + rewrite decide_True by set_solver.
      rewrite filter_cons_False by (intros Hn; by apply Hn).
      rewrite <- IH. f_equal. set_solver.
    + rewrite decide_False by set_solver.
      rewrite filter_cons_True by done. f_equal.
      rewrite <- IH. f_equal. set_solver.
Qed.

Lemma unique_cons (x : string) (l : list string) :
  unique (x :: l) = x :: filter (λ y, y ≠ x) (unique l).
Proof.
  unfold unique. simpl. rewrite decide_False by set_solver. f_equal.
  rewrite unique_from_union. apply list_filter_iff. intros y. set_solver.
Qed.

Lemma unique_app (l m : list string) :
  unique (l ++ m) = unique l ++ filter (λ y, y ∉ l) (unique m).
Proof.
  induction l as [|x l IH]; simpl.
  - symmetry. apply filter_all. intros y _. apply not_elem_of_nil.
  - rewrite !unique_cons, IH, filter_app. simpl. f_equal. f_equal.
    rewrite list_filter_filter. apply list_filter_iff. intros y.
    rewrite not_elem_of_cons. tauto.
Qed.

Lemma unique_NoDup_id (l : list string) : NoDup l → unique l = l.
Proof.
  induction 1 as [|x l Hx _ IH]; [done|].
  rewrite unique_cons, IH. f_equal.
  apply filter_all. intros y Hy ->. contradiction.
Qed.

(** [lstrip] and [rstrip] on strings that are already stripped. *)
Lemma lstrip_starts (s : string) : starts_space (lstrip s) = false.
Proof.
  induction s as [|c s IH]; [done|]. simpl.
  destruct (is_space c) eqn:Hc; [done|]. simpl. by rewrite Hc.
Qed.

Lemma lstrip_id (s : string) : starts_space s = false → lstrip s = s.
Proof. destruct s as [|c s]; [done|]. simpl. by intros ->. Qed.

Lemma rstrip_starts (s : string) :
  starts_space s = false → starts_space (rstrip s) = false.
Proof.
  destruct s as [|c s]; [done|]. simpl. intros Hc.
  destruct (rstrip s); simpl; by rewrite ?Hc.
Qed.

Lemma rstrip_idem (s : string) : rstrip (rstrip s) = rstrip s.
Proof.
  induction s as [|c s IH]; [done|]. simpl.
  destruct (rstrip s) as [|k ks] eqn:Hr.
  - destruct (is_space c) eqn:Hc; [done|]. simpl. by rewrite Hc.
  - change (rstrip (String c (String k ks)))
      with (match rstrip (String k ks) with
            | EmptyString => if is_space c then EmptyString else String c EmptyString
            | kept => String c kept
            end).
    by rewrite IH.
Qed.

Lemma strip_idem (s : string) : strip (strip s) = strip s.
Proof.
  unfold strip.
  rewrite (lstrip_id (rstrip (lstrip s))) by apply rstrip_starts, lstrip_starts.
  apply rstrip_idem.
Qed.

Lemma rstrip_ends (s : string) : ends_space (rstrip s) = false.
Proof.
  induction s as [|c s IH]; [done|]. simpl.
  destruct (rstrip s) as [|k ks].
  - destruct (is_space c) eqn:Hc; [done|]. simpl. by rewrite Hc.
  - exact IH.
Qed.

(** X1: the unique list is built front to back.  A missing entry adds
    nothing; any other entry puts its trimmed text first, and the rest of
    the column contributes its own unique list without that text. *)
Theorem gstins_first_appearance (c : cell) (col : list cell) :
  gstins (c :: col)
  = if isna c then gstins col
    else strip (str c) :: filter (λ g, g ≠ strip (str c)) (gstins col).
Proof.
  unfold gstins, dropna. destruct (isna c) eqn:Hc.
  - rewrite filter_cons_False; [done|]. by rewrite Hc.
  - rewrite filter_cons_True by done. rewrite !fmap_cons. apply unique_cons.
Qed.

(** X2: every identifier of the unique list is trimmed: it neither starts
    nor ends with whitespace, and trimming it again changes nothing. *)
Theorem gstins_trimmed (col : list cell) :
  Forall (λ g, strip g = g ∧ starts_space g = false ∧ ends_space g = false)
    (gstins col).
Proof.
  apply Forall_forall. intros g Hg.
  apply gstins_elem in Hg as (c & _ & _ & <-). split; [|split].
  - apply strip_idem.
  - apply rstrip_starts, lstrip_starts.
  - apply rstrip_ends.
Qed.

(** X3: the pipeline is idempotent: fed its own output as a column, it
    gives that output back. *)
Theorem gstins_idempotent (col : list cell) :
  gstins (CStr <$> gstins col) = gstins col.
Proof.
  unfold gstins at 1. unfold dropna.
  rewrite filter_all by (intros c Hc; by apply list_elem_of_fmap in Hc as (g & -> & _)).
  assert (Hstr : ∀ l : list string, str <$> (CStr <$> l) = l).
  { induction l as [|g l IH]; [done|]. rewrite !fmap_cons, IH. done. }
  rewrite Hstr.
  replace (strip <$> gstins col) with (gstins col).
  - apply unique_NoDup_id, unique_NoDup.
  - pose proof (gstins_trimmed col) as Ht. induction Ht as [|g gs [Hg _] _ IH]; [done|].
    rewrite fmap_cons, Hg. by f_equal.
Qed.

(** X4: a run requests exactly the URL of each unique identifier, once
    each and in first-appearance order, whatever the service answers;
    no URL is requested twice. *)
Theorem requested_once (net : network) (api_key : string) (col : list cell) :
  requested (run net api_key col) = url api_key <$> gstins col
  ∧ NoDup (requested (run net api_key col))
  ∧ length (requested (run net api_key col))
    = length (results (run net api_key col)).
Proof.
  unfold run. rewrite validate_requested. split; [done|]. split.
  - apply (NoDup_fmap_2 _ (Inj0 := url_inj api_key)), unique_NoDup.
  - by rewrite length_fmap, validate_results_length.
Qed.

End Pipeline.

(** ** The lookup client at its edges *)
Section ClientEdges.
Import Py Lookup.

Variable net : network.
Variable api_key : string.

(** X5: a record has exactly the two keys GSTIN and Status, or exactly the
    thirteen keys of a success, in that order; GSTIN is the identifier
    asked for, and the Status of a two-key record is a string. *)
Theorem record_shape (gstin : string) (log : list string) :
  let rec := (get_gstin_details net api_key gstin log).1 in
  dict_get rec "GSTIN" = Some (VStr gstin)
  ∧ ((rec.*1 = ["GSTIN"; "Status"] ∧ ∃ st, dict_get rec "Status" = Some (VStr st))
     ∨ rec.*1 = field_names).
Proof.
  rewrite get_gstin_details_unfold. simpl.
  destruct (net log (url api_key gstin)) as [r|e]; simpl;
    [|by split; [|left; split; [|eexists]]].
  unfold on_response.
  destruct (status_code r =? 200); simpl; [|by split; [|left; split; [|eexists]]].
  destruct (json r) as [resp|e]; simpl; [|by split; [|left; split; [|eexists]]].
  destruct (get resp "flag" VNone) as [flag|e]; simpl;
    [|by split; [|left; split; [|eexists]]].
  destruct (truthy flag); simpl; [|by split; [|left; split; [|eexists]]].
  destruct (get resp "data" (VDict [])) as [data|e]; simpl;
    [|by split; [|left; split; [|eexists]]].
  destruct (details gstin data) as [rec|e] eqn:Hd; simpl;
    [|by split; [|left; split; [|eexists]]].
  apply details_keys in Hd as [-> ->]. by split; [|right].
Qed.

(** X6: a thirteen-key record is only ever built from a response with
    status 200 whose body is a JSON object with a truthy flag. *)
Theorem success_needs_flag (gstin : string) (log : list string) :
  (get_gstin_details net api_key gstin log).1.*1 = field_names →
  ∃ r resp,
    net log (url api_key gstin) = Ok r
    ∧ status_code r = 200
    ∧ json r = Ok (VDict resp)
    ∧ truthy (default VNone (dict_get resp "flag")) = true.
Proof.
  rewrite get_gstin_details_unfold. simpl.
  destruct (net log (url api_key gstin)) as [r|e]; simpl; [|discriminate].
  unfold on_response.
  destruct (status_code r =? 200) eqn:Hcode; simpl; [|discriminate].
  destruct (json r) as [resp|e] eqn:Hjson; simpl; [|discriminate].
  destruct resp as [| | | | |l|resp]; simpl; try discriminate.
  destruct (truthy (default VNone (dict_get resp "flag"))) eqn:Hflag; simpl;
    [|discriminate].
  intros _. exists r, resp. apply Z.eqb_eq in Hcode. done.
Qed.

Lemma get_not_dict (v : value) (k : string) (dflt : value) :
  (∀ d, v ≠ VDict d) →
  get v k dflt
  = Raise (AttributeError ("'" +:+ type_name v +:+ "' object has no attribute 'get'")).
Proof. intros Hv. destruct v; try done. by destruct (Hv d). Qed.

(** X7: with status 200 and a truthy flag, a [data] that is present but is
    not an object, or a [pradr] inside it that is present but is not an
    object, gives no success record: the AttributeError is caught and the
    record is GSTIN and Status "Error: '<type>' object has no attribute
    'get'". *)
Theorem nested_not_object (gstin : string) (log : list string) (r : response)
    (resp : list (string * value)) (v : value) :
  net log (url api_key gstin) = Ok r →
  status_code r = 200 →
  json r = Ok (VDict resp) →
  truthy (default VNone (dict_get resp "flag")) = true →
  (∀ d, v ≠ VDict d) →
  dict_get resp "data" = Some v
  ∨ (∃ d, default (VDict []) (dict_get resp "data") = VDict d
          ∧ dict_get d "pradr" = Some v) →
  (get_gstin_details net api_key gstin log).1
  = [("GSTIN", VStr gstin);
     ("Status", VStr ("Error: '" +:+ type_name v
                        +:+ "' object has no attribute 'get'"))].
Proof.
  intros Hnet Hcode Hjson Hflag Hv Hwhere.
  rewrite get_gstin_details_unfold, Hnet. cbn [fst mbind result_bind bind try_except].
  unfold on_response. rewrite Hcode, Hjson.
  cbn [Z.eqb Pos.eqb mbind result_bind bind get]. rewrite Hflag.
  destruct Hwhere as [Hdata|(d & Hdata & Hpradr)]; rewrite Hdata.
  - cbn [default from_option id]. unfold details.
    rewrite (get_not_dict v "sts" _ Hv). reflexivity.
  - unfold details. cbn [mbind result_bind bind get]. rewrite Hpradr.
    cbn [default from_option id]. rewrite (get_not_dict v "addr" _ Hv). reflexivity.
Qed.

(** A list whose first item that is not a str sits at position [length pre]. *)
Lemma join_items_bad (sep : string) (i : Z) (pre : list string) (v : value)
    (rest : list value) :
  (∀ s, v ≠ VStr s) →
  join_items sep i ((VStr <$> pre) ++ v :: rest)
  = Raise (TypeError ("sequence item " +:+ str_int (i + Z.of_nat (length pre))
                        +:+ ": expected str instance, " +:+ type_name v +:+ " found")).
Proof.
  intros Hv. revert i; induction pre as [|s pre IH]; intros i.
  - simpl. rewrite Z.add_0_r. destruct v; try done. by destruct (Hv s).
  - change (join_items sep i ((VStr <$> s :: pre) ++ v :: rest))
      with (match (VStr <$> pre) ++ v :: rest with
            | [] => Ok s
            | _ => t ← join_items sep (i + 1) ((VStr <$> pre) ++ v :: rest);
                   Ok (s +:+ sep +:+ t)
            end).
    rewrite IH. replace (i + 1 + Z.of_nat (length pre))
      with (i + Z.of_nat (length (s :: pre))) by (simpl length; lia).
    by destruct ((VStr <$> pre) ++ v :: rest) eqn:Hl; [destruct pre|].
Qed.

(** X8: with status 200, a truthy flag and [data] an object whose [pradr]
    is absent or an object, an [nba] that cannot be joined gives no
    success record.  Null, a boolean or a number gives Status "Error: can
    only join an iterable"; a list gives the position and type of its
    first item that is not a string. *)
Theorem nba_not_joinable (gstin : string) (log : list string) (r : response)
    (resp d pradr : list (string * value)) :
  net log (url api_key gstin) = Ok r →
  status_code r = 200 →
  json r = Ok (VDict resp) →
  truthy (default VNone (dict_get resp "flag")) = true →
  default (VDict []) (dict_get resp "data") = VDict d →
  default (VDict []) (dict_get d "pradr") = VDict pradr →
  (∀ v, dict_get d "nba" = Some v →
        (∀ s, v ≠ VStr s) → (∀ l, v ≠ VList l) → (∀ m, v ≠ VDict m) →
        (get_gstin_details net api_key gstin log).1
        = [("GSTIN", VStr gstin); ("Status", VStr "Error: can only join an iterable")])
  ∧ (∀ pre v rest,
        dict_get d "nba" = Some (VList ((VStr <$> pre) ++ v :: rest)) →
        (∀ s, v ≠ VStr s) →
        (get_gstin_details net api_key gstin log).1
        = [("GSTIN", VStr gstin);
           ("Status", VStr ("Error: sequence item " +:+ str_int (Z.of_nat (length pre))
                              +:+ ": expected str instance, " +:+ type_name v
                              +:+ " found"))]).
Proof.
  intros Hnet Hcode Hjson Hflag Hdata Hpradr.
  rewrite get_gstin_details_unfold, Hnet. cbn [fst mbind result_bind bind try_except].
  unfold on_response. rewrite Hcode, Hjson.
  cbn [Z.eqb Pos.eqb mbind result_bind bind get]. rewrite Hflag, Hdata.
  unfold details. cbn [mbind result_bind bind get]. rewrite Hpradr.
  cbn [mbind result_bind bind get]. split.
  - intros v -> Hs Hl Hm. cbn [default from_option id].
    destruct v; try done; [by destruct (Hs s)|by destruct (Hl l)|by destruct (Hm d0)].
  - intros pre v rest -> Hv. cbn [default from_option id join].
    rewrite (join_items_bad ", " 0 pre v rest Hv). reflexivity.
Qed.

(** X9: an [nba] that is a JSON string is iterated character by
    character: the field is its characters joined with ", ". *)
Theorem nba_string_by_character (gstin : string) (log : list string) (r : response)
    (resp d pradr : list (string * value)) (s : string) :
  net log (url api_key gstin) = Ok r →
  status_code r = 200 →
  json r = Ok (VDict resp) →
  truthy (default VNone (dict_get resp "flag")) = true →
  default (VDict []) (dict_get resp "data") = VDict d →
  default (VDict []) (dict_get d "pradr") = VDict pradr →
  dict_get d "nba" = Some (VStr s) →
  dict_get (get_gstin_details net api_key gstin log).1 "Nature_of_Business"
  = Some (VStr (String.concat ", " ((λ c, String c "") <$> list_ascii_of_string s))).
Proof.
  intros Hnet Hcode Hjson Hflag Hdata Hpradr Hnba.
  rewrite get_gstin_details_unfold, Hnet. cbn [fst mbind result_bind bind try_except].
  unfold on_response. rewrite Hcode, Hjson.
  cbn [Z.eqb Pos.eqb mbind result_bind bind get]. rewrite Hflag, Hdata.
  unfold details. cbn [mbind result_bind bind get]. rewrite Hpradr.
  cbn [mbind result_bind bind get]. rewrite Hnba.
  cbn [default from_option id join]. unfold chars.
  replace (map (λ c, VStr (String c "")) (list_ascii_of_string s))
    with (VStr <$> ((λ c, String c "") <$> list_ascii_of_string s))
    by (by rewrite <- list_fmap_compose).
  rewrite join_items_strs. reflexivity.
Qed.

End ClientEdges.

(** ** The report at its edges *)
Section ReportEdges.
Import Py Lookup Sheet Batch.

Lemma cell_len_nonneg (c : cell) : 0 ≤ Report.cell_len c.
Proof. unfold Report.cell_len. destruct (truthy c); lia. Qed.

(** X10: for any worksheet column, the width is 2 more than the longest
    text among its truthy cells: every cell fits, counting a falsy cell
    (None, False, 0, 0.0, the empty string) as empty, some cell is that
    long, and the width is at least 2.  Only a column with no cell at all
    has no width, [max] raising on it. *)
Theorem column_width_max (col : list cell) :
  match Report.column_width col with
  | None => col = []
  | Some w =>
      2 ≤ w
      ∧ Forall (λ c, Report.cell_len c + 2 ≤ w) col
      ∧ Exists (λ c, Report.cell_len c + 2 = w) col
  end.
Proof.
  destruct col as [|c col]; [done|].
  unfold Report.column_width.
  change (Py.max (Report.cell_len <$> c :: col))
    with (Some (fold_left Z.max (Report.cell_len <$> col) (Report.cell_len c))).
  cbn [mbind option_bind].
  destruct (fold_max_spec (Report.cell_len <$> col) (Report.cell_len c))
    as (Hle & Hall & Hin).
  set (m := fold_left Z.max (Report.cell_len <$> col) (Report.cell_len c)) in *.
  pose proof (cell_len_nonneg c). split; [lia|]. split.
  - constructor; [lia|]. rewrite Forall_fmap in Hall.
    eapply Forall_impl; [exact Hall|]. simpl. intros; lia.
  - destruct Hin as [Hm|Hm].
    + apply Exists_cons_hd. lia.
    + apply Exists_cons_tl. apply list_elem_of_fmap in Hm as (c' & Hc' & Hin).
      apply Exists_exists. exists c'. split; [done|]. lia.
Qed.

(** The columns of a frame, record by record. *)
Lemma dataframe_columns_cons (r : record) (rs : list record) :
  Report.dataframe_columns (r :: rs)
  = unique r.*1 ++ filter (λ k, k ∉ r.*1) (Report.dataframe_columns rs).
Proof. unfold Report.dataframe_columns. rewrite fmap_cons. simpl. apply unique_app. Qed.

Lemma dataframe_columns_shapes (rs : list record) :
  Forall (λ r : record, r.*1 = ["GSTIN"; "Status"] ∨ r.*1 = field_names) rs →
  (rs = [] ∧ Report.dataframe_columns rs = [])
  ∨ (rs ≠ [] ∧ Forall (λ r : record, r.*1 = ["GSTIN"; "Status"]) rs
     ∧ Report.dataframe_columns rs = ["GSTIN"; "Status"])
  ∨ (Exists (λ r : record, r.*1 = field_names) rs
     ∧ Report.dataframe_columns rs = field_names).
Proof.
  induction 1 as [|r rs Hr _ IH]; [by left|]. right.
  rewrite dataframe_columns_cons.
  destruct Hr as [Hr|Hr]; rewrite Hr;
    destruct IH as [[-> ->]|[(Hne & Hall & ->)|[Hex ->]]].
  - left. split; [done|]. split; [by constructor|]. by vm_compute.
  - left. split; [done|]. split; [by constructor|]. by vm_compute.
  - right. split; [by apply Exists_cons_tl|]. by vm_compute.
  - right. split; [by apply Exists_cons_hd|]. by vm_compute.
  - right. split; [by apply Exists_cons_hd|]. by vm_compute.
  - right. split; [by apply Exists_cons_hd|]. by vm_compute.
Qed.

(** X11: the frame built from the results of a run has no column when
    there is no result, the two columns GSTIN and Status when no lookup
    succeeded, and the thirteen columns in their fixed order as soon as
    one did, wherever that record sits among the results. *)
Theorem report_columns (net : network) (api_key : string) (gs : list string) :
  let rs := results (validate net api_key gs) in
  (gs = [] ∧ Report.dataframe_columns rs = [])
  ∨ (gs ≠ [] ∧ Forall (λ r : record, r.*1 = ["GSTIN"; "Status"]) rs
     ∧ Report.dataframe_columns rs = ["GSTIN"; "Status"])
  ∨ (Exists (λ r : record, r.*1 = field_names) rs
     ∧ Report.dataframe_columns rs = field_names).
Proof.
  intros rs.
  assert (Hlen : length rs = length gs) by apply validate_results_length.
  assert (Hshape : Forall (λ r : record, r.*1 = ["GSTIN"; "Status"] ∨ r.*1 = field_names) rs).
  { apply Forall_lookup. intros i r Hi.
    destruct (gs !! i) as [g|] eqn:Hg.
    - unfold rs in Hi. rewrite (validate_results_lookup net api_key gs i g Hg) in Hi.
      injection Hi as <-.
      destruct (record_shape net api_key g (url api_key <$> take i gs))
        as [_ [[Hk _]|Hk]]; [by left|by right].
    - apply lookup_ge_None in Hg. apply lookup_lt_Some in Hi. lia. }
  destruct (dataframe_columns_shapes rs Hshape) as [[Hnil Hc]|[(Hne & Hall & Hc)|Hc]].
  - left. split; [|done]. rewrite Hnil in Hlen. by destruct gs.
  - right; left. split; [|done]. intros ->. by destruct rs.
  - by right; right.
Qed.

End ReportEdges.

(** ** What a run shows while it works *)
Section Bookkeeping.
Import Py Lookup Sheet Batch.

Variable net : network.
Variable api_key : string.

(** X12: the status placeholder is given one message per identifier, in
    order, naming the identifier and its 1-based position out of the
    number of unique identifiers, and the success notice last. *)
Theorem status_messages (gs : list string) :
  status (validate net api_key gs)
  = imap (λ i g, Info ("Validating " +:+ g +:+ " ("
                         +:+ str_int (1 + Z.of_nat i) +:+ "/"
                         +:+ str_int (Z.of_nat (length gs)) +:+ ")")) gs
    ++ [Success].
Proof. unfold validate. simpl. by rewrite loop_status. Qed.

Lemma progress_lookup_S (gs : list string) (i : nat) :
  (i < length gs)%nat →
  progress (validate net api_key gs) !! S i
  = Some (progress_value (1 + Z.of_nat i) (Z.of_nat (length gs))).
Proof.
  intros Hi. rewrite validate_progress. simpl. rewrite list_lookup_imap.
  destruct (lookup_lt_is_Some_2 gs i Hi) as [g ->]. done.
Qed.

Lemma progress_length (gs : list string) :
  length (progress (validate net api_key gs)) = S (length gs).
Proof. rewrite validate_progress. simpl. by rewrite length_imap. Qed.

(** The last lookup of a run of at most 100 identifiers sets the bar to
    100, checked by evaluation. *)
Lemma progress_full_small (total : Z) :
  1 ≤ total ≤ 100 → progress_value total total = 100.
Proof.
  intros Ht.
  assert (Hall : Forall (λ n, progress_value n n = 100) (seqZ 1 100)).
  { apply (bool_decide_unpack _). vm_compute. exact I. }
  rewrite Forall_forall in Hall. apply Hall, elem_of_seqZ. lia.
Qed.

Lemma progress_value_range (idx total : Z) :
  1 ≤ idx ≤ total → total ≤ 100 → 0 ≤ progress_value idx total ≤ 100.
Proof.
  intros Hidx Ht.
  destruct (progress_small idx total Hidx Ht) as (v & Hv & Hlo & Hhi).
  unfold progress_value. rewrite Hv. simpl.
  assert (1 ≤ Spec.percent idx total ≤ 100).
  { unfold Spec.percent. split.
    - apply Z.div_le_lower_bound; lia.
    - apply Z.div_le_upper_bound; lia. }
  lia.
Qed.

(** X13: in a run over at most 100 unique identifiers the progress bar
    is set once before the loop and once per identifier, every value is
    between 0 and 100, the values never go down, and the last one is
    100. *)
Theorem progress_in_range (gs : list string) :
  (length gs ≤ 100)%nat →
  let ps := progress (validate net api_key gs) in
  length ps = S (length gs)
  ∧ Forall (λ v, 0 ≤ v ≤ 100) ps
  ∧ (∀ i v w, ps !! i = Some v → ps !! S i = Some w → v ≤ w)
  ∧ (gs ≠ [] → last ps = Some 100).
Proof.
  intros Hlen ps. unfold ps.
  assert (Hrange : ∀ i, (i < length gs)%nat →
            0 ≤ progress_value (1 + Z.of_nat i) (Z.of_nat (length gs)) ≤ 100).
  { intros i Hi. apply progress_value_range; lia. }
  split; [apply progress_length|]. split; [|split].
  - apply Forall_lookup. intros [|i] v Hv.
    + rewrite validate_progress in Hv. injection Hv as <-. lia.
    + assert (Hi : (i < length gs)%nat).
      { apply lookup_lt_Some in Hv. rewrite progress_length in Hv. lia. }
      rewrite (progress_lookup_S gs i Hi) in Hv. injection Hv as <-. by apply Hrange.
  - intros i v w Hv Hw.
    assert (Hi : (i < length gs)%nat).
    { apply lookup_lt_Some in Hw. rewrite progress_length in Hw. lia. }
    rewrite (progress_lookup_S gs i Hi) in Hw. injection Hw as <-.
    destruct i as [|i].
    + rewrite validate_progress in Hv. injection Hv as <-. by apply Hrange.
    + rewrite (progress_lookup_S gs i) in Hv by lia. injection Hv as <-.
      replace (1 + Z.of_nat (S i)) with (1 + Z.of_nat i + 1) by lia.
      apply progress_monotone_small; lia.
  - intros Hne. rewrite last_lookup, progress_length.
    destruct gs as [|g gs']; [done|].
    change (Init.Nat.pred (S (length (g :: gs')))) with (S (length gs')).
    rewrite (progress_lookup_S (g :: gs') (length gs')) by (simpl; lia).
    f_equal. replace (1 + Z.of_nat (length gs')) with (Z.of_nat (length (g :: gs')))
      by (simpl length; lia).
    apply progress_full_small. simpl length in *. lia.
Qed.

End Bookkeeping.

(** ** The guards around the run *)
Section Guards.
Import Py Lookup Sheet Batch Script.

Variable net : network.

Lemma column_None (df : frame) (name : string) :
  column df name = None ↔ Forall (λ lc, lc.1 ≠ CStr name) df.
Proof.
  induction df as [|[label cells] df IH]; simpl.
  - split; [constructor|done].
  - destruct (is_label name label) eqn:Hl.
    + split; [done|]. intros Hall. apply Forall_cons in Hall as [Hne _].
      destruct label; try done. simpl in *. apply String.eqb_eq in Hl. by subst.
    + rewrite IH, Forall_cons. simpl. split; [|tauto]. intros Hall. split; [|done].
      intros ->. simpl in Hl. by rewrite String.eqb_refl in Hl.
Qed.

(** X14: a page load requests nothing from the service unless a file is
    uploaded and readable, the key is not empty, the frame has a column
    labelled exactly GSTIN holding at least one identifier, and the
    button is pressed. *)
Theorem no_lookup_unless (api_key : string) (uploaded_file : option upload)
    (run_btn : bool) :
  page_requested (main net api_key uploaded_file run_btn) ≠ [] →
  api_key ≠ "" ∧ run_btn = true
  ∧ ∃ df col,
      uploaded_file = Some (Readable df)
      ∧ column df "GSTIN" = Some col
      ∧ gstins col ≠ [].
Proof.
  unfold main. destruct uploaded_file as [[msg|df]|]; try done.
  - by destruct (negb (String.eqb api_key "")).
  - destruct (String.eqb api_key "") eqn:Hkey; [done|]. simpl.
    destruct (column df "GSTIN") as [col|] eqn:Hcol; [|done].
    destruct run_btn; [|done]. cbn [page_requested].
    rewrite validate_requested. intros Hreq.
    split; [|split; [done|]].
    + intros ->. by rewrite String.eqb_refl in Hkey.
    + exists df, col. split; [done|]. split; [done|]. intros Hg. by rewrite Hg in Hreq.
Qed.

(** X15: the number of unique identifiers announced before the button is
    pressed is the number of rows and of requests of the run once it is. *)
Theorem found_count (api_key : string) (df : frame) (col : list cell) :
  api_key ≠ "" →
  column df "GSTIN" = Some col →
  main net api_key (Some (Readable df)) false
  = Found (found_message (length (gstins col)))
  ∧ ∃ st,
      main net api_key (Some (Readable df)) true
      = Validated (found_message (length (gstins col))) st
      ∧ length (results st) = length (gstins col)
      ∧ length (requested st) = length (gstins col).
Proof.
  intros Hkey Hcol. unfold main. rewrite Hcol.
  apply String.eqb_neq in Hkey as ->. simpl. split; [done|].
  eexists. split; [done|]. split.
  - apply validate_results_length.
  - rewrite validate_requested. apply length_fmap.
Qed.

(** X16: the column check is exact: when no label of the frame is the
    string GSTIN (another letter case or surrounding spaces do not count),
    the page shows the column error, with the button pressed or not, and
    nothing is requested. *)
Theorem missing_column_error (api_key : string) (df : frame) (run_btn : bool) :
  api_key ≠ "" →
  Forall (λ lc, lc.1 ≠ CStr "GSTIN") df →
  main net api_key (Some (Readable df)) run_btn = ColumnError
  ∧ page_requested (main net api_key (Some (Readable df)) run_btn) = [].
Proof.
  intros Hkey Hall. unfold main.
  apply String.eqb_neq in Hkey as ->. simpl.
  apply column_None in Hall as ->. done.
Qed.

End Guards.

(** ** The name of the downloaded file *)
Section FileName.
Import Py Download.

Lemma length_append (a b : string) :
  String.length (a +:+ b) = (String.length a + String.length b)%nat.
Proof. induction a as [|c a IH]; simpl; [done|]. by rewrite IH. Qed.

Lemma append_inj_length (a1 a2 b1 b2 : string) :
  String.length a1 = String.length a2 →
  a1 +:+ b1 = a2 +:+ b2 → a1 = a2 ∧ b1 = b2.
Proof.
  revert a2; induction a1 as [|c a1 IH]; intros [|c2 a2] Hlen H; try done.
  simpl in *. injection H as -> H. injection Hlen as Hlen.
  destruct (IH a2 Hlen H) as [-> ->]. done.
Qed.

Lemma str_int_inj (a b : Z) : str_int a = str_int b → a = b.
Proof.
  assert (Hnil : ∀ z, Z.to_int z ≠ Decimal.Pos Decimal.Nil
                      ∧ Z.to_int z ≠ Decimal.Neg Decimal.Nil).
  { intros [|p|p]; simpl; split; try done; intros [= H];
      by apply DecimalPos.Unsigned.to_uint_nonnil in H. }
  unfold str_int. intros H. apply (f_equal NilZero.int_of_string) in H.
  rewrite !NilZero.isi in H by apply Hnil. injection H as H.
  apply (f_equal Z.of_int) in H. by rewrite !DecimalZ.of_to in H.
Qed.

(** The two-digit fields, checked by evaluation on 0..99. *)
Lemma pad2_length (n : Z) : 0 ≤ n ≤ 99 → String.length (pad2 n) = 2%nat.
Proof.
  intros Hn.
  assert (Hall : Forall (λ k, String.length (pad2 k) = 2%nat) (seqZ 0 100)).
  { apply (bool_decide_unpack _). vm_compute. exact I. }
  rewrite Forall_forall in Hall. apply Hall, elem_of_seqZ. lia.
Qed.

Lemma pad2_inj (a b : Z) : 0 ≤ a ≤ 99 → 0 ≤ b ≤ 99 → pad2 a = pad2 b → a = b.
Proof.
  intros Ha Hb. unfold pad2.
  destruct (a <? 10) eqn:Ea; destruct (b <? 10) eqn:Eb; intros H.
  - injection H as H. by apply str_int_inj.
  - exfalso. apply Z.ltb_lt in Ea. apply Z.ltb_ge in Eb.
    assert (Hall : Forall (λ k, Forall (λ j, "0" +:+ str_int k ≠ str_int j) (seqZ 10 90))
                     (seqZ 0 10)).
    { apply (bool_decide_unpack _). vm_compute. exact I. }
    rewrite Forall_forall in Hall. specialize (Hall a).
    rewrite elem_of_seqZ in Hall. specialize (Hall ltac:(lia)).
    rewrite Forall_forall in Hall. apply (Hall b); [apply elem_of_seqZ; lia|done].
  - exfalso. apply Z.ltb_lt in Eb. apply Z.ltb_ge in Ea.
    assert (Hall : Forall (λ k, Forall (λ j, "0" +:+ str_int k ≠ str_int j) (seqZ 10 90))
                     (seqZ 0 10)).
    { apply (bool_decide_unpack _). vm_compute. exact I. }
    rewrite Forall_forall in Hall. specialize (Hall b).
    rewrite elem_of_seqZ in Hall. specialize (Hall ltac:(lia)).
    rewrite Forall_forall in Hall. apply (Hall a); [apply elem_of_seqZ; lia|done].
  - by apply str_int_inj.
Qed.

(** A year of four digits, checked by evaluation on 1000..9999. *)
Lemma year_length (y : Z) : 1000 ≤ y ≤ 9999 → String.length (str_int y) = 4%nat.
Proof.
  intros Hy.
  assert (Hall : Forall (λ k, String.length (str_int k) = 4%nat) (seqZ 1000 9000)).
  { apply (bool_decide_unpack _). vm_compute. exact I. }
  rewrite Forall_forall in Hall. apply Hall, elem_of_seqZ. lia.
Qed.

Lemma strftime_length (d : datetime) :
  in_range d → String.length (strftime d) = 15%nat.
Proof.
  intros (Hy & Hm & Hd & Hh & Hmi & Hs). unfold strftime.
  rewrite !length_append, year_length, !pad2_length by lia. done.
Qed.

(** X17: for a date with a four-digit year the file name has 44
    characters: the fixed prefix, the stamp YYYYMMDD_HHMMSS with every
    field zero-padded, and the extension. *)
Theorem file_name_shape (d : datetime) :
  in_range d →
  String.length (file_name d) = 44%nat
  ∧ ∃ stamp,
      file_name d = "GSTIN_Validation_Report_" +:+ stamp +:+ ".xlsx"
      ∧ String.length stamp = 15%nat
      ∧ String.get 8 stamp = Some "_"%char.
Proof.
  intros Hd. split.
  - unfold file_name. rewrite !length_append, strftime_length by done. done.
  - exists (strftime d). split; [done|]. split; [by apply strftime_length|].
    destruct Hd as (Hy & Hm & Hd & _). unfold strftime.
    pose proof (year_length (year d) Hy) as Ly.
    pose proof (pad2_length (month d) ltac:(lia)) as Lm.
    pose proof (pad2_length (day d) ltac:(lia)) as Ld.
    destruct (str_int (year d)) as [|y1 [|y2 [|y3 [|y4 [|]]]]]; try done.
    destruct (pad2 (month d)) as [|m1 [|m2 [|]]]; try done.
    destruct (pad2 (day d)) as [|d1 [|d2 [|]]]; try done.
Qed.

(** X18: two different dates and times, to the second, never give the
    same file name. *)
Theorem file_name_inj (d1 d2 : datetime) :
  in_range d1 → in_range d2 → file_name d1 = file_name d2 → d1 = d2.
Proof.
  intros H1 H2 H. unfold file_name in H. apply append_inj_r in H.
  apply append_inj_length in H as [H _];
    [|by rewrite !strftime_length].
  destruct H1 as (Hy1 & Hm1 & Hd1 & Hh1 & Hmi1 & Hs1).
  destruct H2 as (Hy2 & Hm2 & Hd2 & Hh2 & Hmi2 & Hs2).
  unfold strftime in H.
  apply append_inj_length in H as [Hy H]; [|by rewrite !year_length].
  apply append_inj_length in H as [Hm H]; [|by rewrite !pad2_length by lia].
  apply append_inj_length in H as [Hd H]; [|by rewrite !pad2_length by lia].
  apply append_inj_r in H.
  apply append_inj_length in H as [Hh H]; [|by rewrite !pad2_length by lia].
  apply append_inj_length in H as [Hmi Hs]; [|by rewrite !pad2_length by lia].
  apply str_int_inj in Hy. apply pad2_inj in Hm, Hd, Hh, Hmi, Hs; try lia.
  destruct d1, d2. simpl in *. by subst.
Qed.

End FileName.

(** ** The further properties at concrete inputs *)
Section MoreExamples.
Import Py Lookup Sheet Batch Script Download.

Lemma success_needs_flag_witness :
  ∃ r resp,
    Mock.fixed 200 (Ok (VDict [("flag", VBool true); ("data", Mock.acme)]))
      [] (url "key" "27AAPFU0939F1ZV") = Ok r
    ∧ status_code r = 200
    ∧ json r = Ok (VDict resp)
    ∧ Py.truthy (default VNone (dict_get resp "flag")) = true.
Proof.
  apply (success_needs_flag
           (Mock.fixed 200 (Ok (VDict [("flag", VBool true); ("data", Mock.acme)])))
           "key" "27AAPFU0939F1ZV" []).
  reflexivity.
Defined.

Lemma nested_not_object_witness :
  (get_gstin_details
     (Mock.fixed 200 (Ok (VDict [("flag", VBool true); ("data", VNone)])))
     "key" "27AAPFU0939F1ZV" []).1
  = [("GSTIN", VStr "27AAPFU0939F1ZV");
     ("Status", VStr "Error: 'NoneType' object has no attribute 'get'")].
Proof.
  apply (nested_not_object
           (Mock.fixed 200 (Ok (VDict [("flag", VBool true); ("data", VNone)])))
           "key" "27AAPFU0939F1ZV" []
           {| status_code := 200;
              json := Ok (VDict [("flag", VBool true); ("data", VNone)]) |}
           [("flag", VBool true); ("data", VNone)] VNone);
    [reflexivity | reflexivity | reflexivity | reflexivity | discriminate
    | left; reflexivity].
Defined.

Lemma nba_not_joinable_witness :
  (get_gstin_details
     (Mock.fixed 200 (Ok (VDict [("flag", VBool true);
                                 ("data", VDict [("nba", VList [VStr "Retail"; VInt 7])])])))
     "key" "27AAPFU0939F1ZV" []).1
  = [("GSTIN", VStr "27AAPFU0939F1ZV");
     ("Status", VStr "Error: sequence item 1: expected str instance, int found")].
Proof.
  apply (proj2 (nba_not_joinable
           (Mock.fixed 200 (Ok (VDict [("flag", VBool true);
                                       ("data", VDict [("nba", VList [VStr "Retail"; VInt 7])])])))
           "key" "27AAPFU0939F1ZV" []
           {| status_code := 200;
              json := Ok (VDict [("flag", VBool true);
                                 ("data", VDict [("nba", VList [VStr "Retail"; VInt 7])])]) |}
           [("flag", VBool true); ("data", VDict [("nba", VList [VStr "Retail"; VInt 7])])]
           [("nba", VList [VStr "Retail"; VInt 7])] []
           eq_refl eq_refl eq_refl eq_refl eq_refl eq_refl)
         ["Retail"] (VInt 7) []);
    [reflexivity | discriminate].
Defined.

Lemma nba_string_by_character_witness :
  dict_get
    (get_gstin_details
       (Mock.fixed 200 (Ok (VDict [("flag", VBool true);
                                   ("data", VDict [("nba", VStr "Retail")])])))
       "key" "27AAPFU0939F1ZV" []).1 "Nature_of_Business"
  = Some (VStr "R, e, t, a, i, l").
Proof.
  apply (nba_string_by_character
           (Mock.fixed 200 (Ok (VDict [("flag", VBool true);
                                       ("data", VDict [("nba", VStr "Retail")])])))
           "key" "27AAPFU0939F1ZV" []
           {| status_code := 200;
              json := Ok (VDict [("flag", VBool true);
                                 ("data", VDict [("nba", VStr "Retail")])]) |}
           [("flag", VBool true); ("data", VDict [("nba", VStr "Retail")])]
           [("nba", VStr "Retail")] [] "Retail");
    reflexivity.
Defined.

Lemma progress_in_range_witness :
  length (progress (validate Mock.unknown "key" ["A"; "B"; "C"])) = 4%nat
  ∧ Forall (λ v, 0 ≤ v ≤ 100) (progress (validate Mock.unknown "key" ["A"; "B"; "C"]))
  ∧ (∀ i v w,
        progress (validate Mock.unknown "key" ["A"; "B"; "C"]) !! i = Some v →
        progress (validate Mock.unknown "key" ["A"; "B"; "C"]) !! S i = Some w →
        v ≤ w)
  ∧ (["A"; "B"; "C"] ≠ [] →
     last (progress (validate Mock.unknown "key" ["A"; "B"; "C"])) = Some 100).
Proof.
  apply (progress_in_range Mock.unknown "key" ["A"; "B"; "C"]). simpl. lia.
Defined.

Lemma no_lookup_unless_witness :
  "key" ≠ "" ∧ true = true
  ∧ ∃ df col,
      Some (Readable [(CStr "GSTIN", [CStr "27AAPFU0939F1ZV"])]) = Some (Readable df)
      ∧ column df "GSTIN" = Some col
      ∧ gstins col ≠ [].
Proof.
  apply (no_lookup_unless Mock.unknown "key"
           (Some (Readable [(CStr "GSTIN", [CStr "27AAPFU0939F1ZV"])])) true).
  vm_compute. discriminate.
Defined.

Lemma found_count_witness :
  main Mock.unknown "key"
    (Some (Readable [(CStr "Name", [CStr "x"; CStr "y"]);
                     (CStr "GSTIN", [CStr " A "; CStr "A"])])) false
  = Found (found_message (length (gstins [CStr " A "; CStr "A"])))
  ∧ ∃ st,
      main Mock.unknown "key"
        (Some (Readable [(CStr "Name", [CStr "x"; CStr "y"]);
                         (CStr "GSTIN", [CStr " A "; CStr "A"])])) true
      = Validated (found_message (length (gstins [CStr " A "; CStr "A"]))) st
      ∧ length (results st) = length (gstins [CStr " A "; CStr "A"])
      ∧ length (requested st) = length (gstins [CStr " A "; CStr "A"]).
Proof.
  apply (found_count Mock.unknown "key"
           [(CStr "Name", [CStr "x"; CStr "y"]); (CStr "GSTIN", [CStr " A "; CStr "A"])]
           [CStr " A "; CStr "A"]);
    [discriminate | reflexivity].
Defined.

Lemma missing_column_error_witness :
  main Mock.unknown "key"
    (Some (Readable [(CStr "gstin", [CStr "A"]); (CStr " GSTIN", [CStr "B"])])) true
  = ColumnError
  ∧ page_requested
      (main Mock.unknown "key"
         (Some (Readable [(CStr "gstin", [CStr "A"]); (CStr " GSTIN", [CStr "B"])])) true)
    = [].
Proof.
  apply (missing_column_error Mock.unknown "key"
           [(CStr "gstin", [CStr "A"]); (CStr " GSTIN", [CStr "B"])] true);
    [discriminate | repeat constructor; discriminate].
Defined.

Lemma file_name_shape_witness :
  String.length
    (file_name {| year := 2025; month := 3; day := 9;
                  hour := 14; minute := 5; second := 0 |}) = 44%nat
  ∧ ∃ stamp,
      file_name {| year := 2025; month := 3; day := 9;
                   hour := 14; minute := 5; second := 0 |}
      = "GSTIN_Validation_Report_" +:+ stamp +:+ ".xlsx"
      ∧ String.length stamp = 15%nat
      ∧ String.get 8 stamp = Some "_"%char.
Proof.
  apply (file_name_shape {| year := 2025; month := 3; day := 9;
                            hour := 14; minute := 5; second := 0 |}).
  unfold in_range. simpl. lia.
Defined.

Lemma file_name_inj_witness :
  {| year := 2025; month := 3; day := 9; hour := 14; minute := 5; second := 0 |}
  = {| year := 2025; month := 3; day := 9; hour := 14; minute := 5; second := 0 |}.
Proof.
  apply (file_name_inj
           {| year := 2025; month := 3; day := 9; hour := 14; minute := 5; second := 0 |}
           {| year := 2025; month := 3; day := 9; hour := 14; minute := 5; second := 0 |});
    [unfold in_range; simpl; lia | unfold in_range; simpl; lia | reflexivity].
Defined.

End MoreExamples.
